(** * CitizenAI: model initialisation, response generation and sentiment scoring

    A shallow embedding of [src/app.py] (functions [initialize_model],
    [generate_response], [analyze_sentiment] and the start-up block of
    [__main__]) together with the properties stated about them.

    Conventions of the embedding
    - A Python [str] is the list of its Unicode code points ([str]).
    - Objects of [torch] and [transformers] are opaque handles; what their
      methods do (return a value or raise) is given by an environment
      [env], over which every statement quantifies.
    - Python code that can raise lives in the monad [M]: it threads the three
      module globals, returns [Ok v] or [Raise e], and records the calls made
      to the outside world in a trace.  A [try]/[except Exception] block is
      [try_except]; assignments made before an exception is raised are kept,
      as in Python. *)

From Stdlib Require Import List NArith ZArith Arith Bool Lia String Ascii.
From Stdlib Require QArith.
Import ListNotations.

(* ================================================================== *)
(** * Python strings *)
(* ================================================================== *)

Module PyStr.

(** A character is a Unicode code point. *)
Definition char := N.
Definition str := list char.

(** [lit "abc"] is the Python literal ['abc'] (for literals made of ASCII
    characters only, where code point and byte coincide). *)
Definition lit (s : string) : str := map N_of_ascii (list_ascii_of_string s).

(** [a == b]. *)
Fixpoint eqb (a b : str) : bool :=
  match a, b with
  | [], [] => true
  | x :: a', y :: b' => N.eqb x y && eqb a' b'
  | _, _ => false
  end.

(** [s.startswith(sub)]. *)
Fixpoint startswith (sub s : str) : bool :=
  match sub, s with
  | [], _ => true
  | _ :: _, [] => false
  | a :: sub', b :: s' => N.eqb a b && startswith sub' s'
  end.

(** [sub in s]: [sub] occurs at some position of [s]. *)
Fixpoint contains (sub s : str) : bool :=
  startswith sub s ||
  match s with
  | [] => false
  | _ :: s' => contains sub s'
  end.

(** [s.find(sub)]: index of the first occurrence, [None] for Python's -1. *)
Fixpoint find (sub s : str) : option nat :=
  if startswith sub s then Some 0
  else match s with
       | [] => None
       | _ :: s' => option_map S (find sub s')
       end.

(** The loop of [s.split(sep)] for a non-empty [sep]: cut at the first
    occurrence, continue after it.  Every round consumes at least one
    character, so [length s] rounds are enough (lemma [split_loop_fuel]). *)
Fixpoint split_loop (fuel : nat) (sep s : str) : list str :=
  match fuel with
  | 0 => [s]
  | S fuel' =>
      match find sep s with
      | None => [s]
      | Some i => firstn i s :: split_loop fuel' sep (skipn (i + List.length sep) s)
      end
  end.

(** [s.split(sep)]; Python raises [ValueError] on an empty separator, which
    is [None] here. *)
Definition split (s sep : str) : option (list str) :=
  match sep with
  | [] => None
  | _ :: _ => Some (split_loop (List.length s) sep s)
  end.

(** [l[-1]]; Python raises [IndexError] on an empty list, [None] here. *)
Fixpoint last_item {A : Type} (l : list A) : option A :=
  match l with
  | [] => None
  | [x] => Some x
  | _ :: l' => last_item l'
  end.

(** [c.isspace()]: the code points Python treats as white space. *)
Definition isspace (c : char) : bool :=
  (((9 <=? c) && (c <=? 13)) || ((28 <=? c) && (c <=? 32)) ||
   (c =? 133) || (c =? 160) || (c =? 5760) ||
   ((8192 <=? c) && (c <=? 8202)) || (c =? 8232) || (c =? 8233) ||
   (c =? 8239) || (c =? 8287) || (c =? 12288))%N.

(** [s.lstrip()], [s.rstrip()] and [s.strip()]. *)
Fixpoint lstrip (s : str) : str :=
  match s with
  | [] => []
  | c :: s' => if isspace c then lstrip s' else s
  end.

Fixpoint rstrip (s : str) : str :=
  match s with
  | [] => []
  | c :: s' =>
      match rstrip s' with
      | [] => if isspace c then [] else [c]
      | r => c :: r
      end
  end.

Definition strip (s : str) : str := rstrip (lstrip s).

(** Lower-casing of the ASCII letters, one instance of [s.lower()] used to
    run the model on ASCII text. *)
Definition ascii_lower_char (c : char) : char :=
  (if (65 <=? c) && (c <=? 90) then c + 32 else c)%N.
Definition ascii_lower (s : str) : str := map ascii_lower_char s.

End PyStr.

(* ================================================================== *)
(** * Exceptions, the outside world and the effect monad *)
(* ================================================================== *)

Module Py.
Import PyStr.

(** An instance of Python's [Exception] class, which is what the handlers of
    the program catch; the payload is its message. *)
Inductive exn : Type := Exception (what : string).

Inductive res (A : Type) : Type :=
| Ok (a : A)
| Raise (e : exn).
Arguments Ok {A} a.
Arguments Raise {A} e.

(** ** Handles of the external libraries *)

Inductive Device : Type := Cuda | Cpu.           (* "cuda" and "cpu" *)
Inductive Tokenizer : Type := TokenizerObj (id : nat).
Inductive Model : Type := ModelObj (id : nat).
Inductive QuantConfig : Type := QuantConfigObj (id : nat).
Inductive BatchEncoding : Type := BatchEncodingObj (id : nat).
Inductive Tensor : Type := TensorObj (id : nat).

(** Keyword arguments of the three calls of
    [AutoModelForCausalLM.from_pretrained]. *)
Inductive load_kwargs : Type :=
| Quantized (cfg : QuantConfig)  (* quantization_config=cfg, device_map="auto", torch_dtype=float16 *)
| Float32                        (* torch_dtype=torch.float32 *)
| NoKwargs.                      (* the fallback call *)

(** Keyword arguments of [model.generate]. *)
Record generate_kwargs : Type := {
  max_new_tokens : nat;
  temperature : QArith_base.Q;
  do_sample : bool;
  pad_token_id : option nat;
  repetition_penalty : QArith_base.Q
}.

(** What the collaborators do when called: each call returns or raises. *)
Record env : Type := {
  cuda_is_available : res bool;
  AutoTokenizer_from_pretrained : str -> res Tokenizer;
  BitsAndBytesConfig : res QuantConfig;
  AutoModelForCausalLM_from_pretrained : str -> load_kwargs -> res Model;
  Model_to : Model -> Device -> res unit;
  Tokenizer_call : Tokenizer -> str -> nat -> res BatchEncoding;
  BatchEncoding_to : BatchEncoding -> option Device -> res BatchEncoding;
  BatchEncoding_input_ids : BatchEncoding -> res Tensor;
  torch_no_grad : res unit;
  Tokenizer_eos_token_id : Tokenizer -> res (option nat);
  Model_generate : Model -> Tensor -> generate_kwargs -> res Tensor;
  Tensor_getitem : Tensor -> nat -> res Tensor;
  Tokenizer_decode : Tokenizer -> Tensor -> res str
}.

(** ** The module globals *)

(** A loaded object together with the model path it was loaded from. *)
Record loaded (A : Type) : Type := { origin : str; obj : A }.
Arguments origin {A} _.
Arguments obj {A} _.

Record globals : Type := {
  tokenizer : option (loaded Tokenizer);
  model : option (loaded Model);
  device : option Device
}.

(** Lines 13-15. *)
Definition initial_globals : globals :=
  {| tokenizer := None; model := None; device := None |}.

(** ** Observable events *)

(** The lines written by [print]. *)
Inductive message : Type :=
| MsgInitializing                 (* "Initializing AI model..." *)
| MsgUsingDevice (d : Device)     (* "Using device: ..." *)
| MsgGraniteOk                    (* "Granite model initialized successfully!" *)
| MsgGraniteError (e : exn)       (* "Error initializing Granite: ..." *)
| MsgFallingBack                  (* "Falling back to smaller model..." *)
| MsgFallbackOk                   (* "Fallback model initialized successfully!" *)
| MsgFallbackError (e : exn)      (* "Error initializing fallback model: ..." *)
| MsgDummyOnly                    (* "Running with dummy responses only." *)
| MsgErrorGenerating (e : exn)    (* "Error generating response: ..." *)
| MsgStarting                     (* "Starting CitizenAI Application..." *)
| MsgFallbackOrDummy              (* "Running with fallback or dummy responses only." *)
| MsgErrorDuringInit (e : exn)    (* "Error during model initialization: ..." *)
| MsgContinuingDummy              (* "Continuing with dummy responses..." *)
| MsgFlaskStarting.               (* "Flask application starting..." *)

Inductive event : Type :=
| EvPrint (m : message)
| EvCudaIsAvailable
| EvLoadTokenizer (path : str)
| EvBitsAndBytesConfig
| EvLoadModel (path : str) (kw : load_kwargs)
| EvModelTo (m : Model) (d : Device)
| EvTokenize (t : Tokenizer) (prompt : str)
| EvEncodingTo (b : BatchEncoding) (d : option Device)
| EvInputIds (b : BatchEncoding)
| EvNoGrad
| EvEosTokenId (t : Tokenizer)
| EvGenerate (m : Model) (ids : Tensor)
| EvGetItem (t : Tensor) (i : nat)
| EvDecode (t : Tokenizer) (ids : Tensor).

(** ** The monad *)

Definition M (A : Type) : Type := globals -> res A * globals * list event.

Definition ret {A} (a : A) : M A := fun g => (Ok a, g, []).

Definition bind {A B} (c : M A) (k : A -> M B) : M B :=
  fun g =>
    match c g with
    | (Ok a, g1, t1) => let '(r, g2, t2) := k a g1 in (r, g2, t1 ++ t2)
    | (Raise e, g1, t1) => (Raise e, g1, t1)
    end.

Definition raise {A} (e : exn) : M A := fun g => (Raise e, g, []).

(** [try: body  except Exception as e: handler e]. *)
Definition try_except {A} (body : M A) (handler : exn -> M A) : M A :=
  fun g =>
    match body g with
    | (Ok a, g1, t1) => (Ok a, g1, t1)
    | (Raise e, g1, t1) => let '(r, g2, t2) := handler e g1 in (r, g2, t1 ++ t2)
    end.

(** A call to a collaborator: logged, then its outcome. *)
Definition call {A} (ev : event) (outcome : res A) : M A :=
  fun g => (outcome, g, [ev]).

(** A pure operation that raises the given exception when it has no value. *)
Definition lift {A} (o : option A) (e : exn) : M A :=
  match o with
  | Some a => ret a
  | None => raise e
  end.

Definition print (m : message) : M unit := fun g => (Ok tt, g, [EvPrint m]).

Definition get_tokenizer : M (option (loaded Tokenizer)) := fun g => (Ok (tokenizer g), g, []).
Definition get_model : M (option (loaded Model)) := fun g => (Ok (model g), g, []).
Definition get_device : M (option Device) := fun g => (Ok (device g), g, []).

Definition set_tokenizer (path : str) (t : Tokenizer) : M unit :=
  fun g => (Ok tt,
            {| tokenizer := Some {| origin := path; obj := t |};
               model := model g; device := device g |}, []).
Definition set_model (path : str) (m : Model) : M unit :=
  fun g => (Ok tt,
            {| tokenizer := tokenizer g;
               model := Some {| origin := path; obj := m |}; device := device g |}, []).
Definition set_device (d : Device) : M unit :=
  fun g => (Ok tt,
            {| tokenizer := tokenizer g; model := model g; device := Some d |}, []).

Definition result {A} (x : res A * globals * list event) : res A := fst (fst x).
Definition final {A} (x : res A * globals * list event) : globals := snd (fst x).
Definition events {A} (x : res A * globals * list event) : list event := snd x.

Declare Scope py_scope.
Delimit Scope py_scope with py.
Notation "x <- c ;; k" := (bind c (fun x => k))
  (at level 61, c at next level, right associativity) : py_scope.
Notation "c ;; k" := (bind c (fun _ => k))
  (at level 61, right associativity) : py_scope.

End Py.

(* ================================================================== *)
(** * The program: [src/app.py] *)
(* ================================================================== *)

Module App.
Import PyStr Py.
Local Open Scope py_scope.

(** Lines 11-12. *)
Definition primary_model_path : str := lit "ibm-granite/granite-3.0-3b-a800m-instruct".
Definition fallback_model_path : str := lit "microsoft/DialoGPT-small".

(** ** [initialize_model], lines 22-69 *)

Section Initialize.
Variable E : env.

(** Lines 32-51: the body of the outer [try], up to the success message. *)
Definition load_primary (dev : Device) : M unit :=
  t <- call (EvLoadTokenizer primary_model_path)
            (AutoTokenizer_from_pretrained E primary_model_path) ;;
  set_tokenizer primary_model_path t ;;
  match dev with
  | Cuda =>
      quantization_config <- call EvBitsAndBytesConfig (BitsAndBytesConfig E) ;;
      m <- call (EvLoadModel primary_model_path (Quantized quantization_config))
                (AutoModelForCausalLM_from_pretrained E primary_model_path
                   (Quantized quantization_config)) ;;
      set_model primary_model_path m
  | Cpu =>
      m <- call (EvLoadModel primary_model_path Float32)
                (AutoModelForCausalLM_from_pretrained E primary_model_path Float32) ;;
      set_model primary_model_path m ;;
      call (EvModelTo m dev) (Model_to E m dev)
  end.

(** Lines 61-63: the body of the inner [try], up to the success message. *)
Definition load_fallback (dev : Device) : M unit :=
  t <- call (EvLoadTokenizer fallback_model_path)
            (AutoTokenizer_from_pretrained E fallback_model_path) ;;
  set_tokenizer fallback_model_path t ;;
  m <- call (EvLoadModel fallback_model_path NoKwargs)
            (AutoModelForCausalLM_from_pretrained E fallback_model_path NoKwargs) ;;
  set_model fallback_model_path m ;;
  call (EvModelTo m dev) (Model_to E m dev).

Definition initialize_model : M bool :=
  print MsgInitializing ;;
  available <- call EvCudaIsAvailable (cuda_is_available E) ;;
  let dev := if (available : bool) then Cuda else Cpu in
  set_device dev ;;
  print (MsgUsingDevice dev) ;;
  try_except
    (load_primary dev ;;
     print MsgGraniteOk ;;
     ret true)
    (fun e =>
       print (MsgGraniteError e) ;;
       print MsgFallingBack ;;
       try_except
         (load_fallback dev ;;
          print MsgFallbackOk ;;
          ret true)
         (fun e2 =>
            print (MsgFallbackError e2) ;;
            print MsgDummyOnly ;;
            ret false)).

(** Lines 240-250 of [__main__], up to the start of the web server. *)
Definition startup : M unit :=
  print MsgStarting ;;
  try_except
    (model_initialized <- initialize_model ;;
     if negb model_initialized then print MsgFallbackOrDummy else ret tt)
    (fun e =>
       print (MsgErrorDuringInit e) ;;
       print MsgContinuingDummy) ;;
  print MsgFlaskStarting.

End Initialize.

(** ** [generate_response], lines 71-107 *)

Definition NOT_READY : str :=
  lit "I'm currently setting up my AI capabilities. Please try again in a moment.".

(** The apostrophe of this message is U+2019. *)
Definition TECHNICAL_DIFFICULTIES : str :=
  lit "I" ++ [8217%N] ++
  lit "m having technical difficulties right now. Please try again later.".

Definition newline : str := [10%N].

(** The f-string of lines 79-84. *)
Definition prompt_of (question : str) : str :=
  lit "You are a helpful AI assistant for a government citizen engagement platform. "
  ++ newline ++
  lit "        Provide clear, accurate, and helpful information about government services, policies, and civic processes."
  ++ newline ++ newline ++
  lit "        Question: " ++ question
  ++ newline ++ newline ++
  lit "        Answer:".

Definition ANSWER : str := lit "Answer:".

Definition ValueError : exn := Exception "empty separator".
Definition IndexError : exn := Exception "list index out of range".

(** Lines 100-103, on the decoded text. *)
Definition extract_answer (response : str) : M str :=
  if contains ANSWER response then
    parts <- lift (split response ANSWER) ValueError ;;
    answer <- lift (last_item parts) IndexError ;;
    ret (strip answer)
  else ret response.

(** The keyword arguments of lines 92-96: 150 new tokens, temperature 0.7,
    sampling, the end-of-sequence token as padding, repetition penalty 1.1. *)
Definition sampling (eos_token_id : option nat) : generate_kwargs :=
  {| max_new_tokens := 150;
     temperature := QArith_base.Qmake 7%Z 10%positive;
     do_sample := true;
     pad_token_id := eos_token_id;
     repetition_penalty := QArith_base.Qmake 11%Z 10%positive |}.

Section Generate.
Variable E : env.

(** Lines 79-103: the body of the [try]. *)
Definition generate_steps (tok : Tokenizer) (mdl : Model) (question : str) : M str :=
  let prompt := prompt_of question in
  inputs <- call (EvTokenize tok prompt) (Tokenizer_call E tok prompt 512) ;;
  dev <- get_device ;;
  inputs <- call (EvEncodingTo inputs dev) (BatchEncoding_to E inputs dev) ;;
  call EvNoGrad (torch_no_grad E) ;;
  input_ids <- call (EvInputIds inputs) (BatchEncoding_input_ids E inputs) ;;
  eos <- call (EvEosTokenId tok) (Tokenizer_eos_token_id E tok) ;;
  outputs <- call (EvGenerate mdl input_ids)
                  (Model_generate E mdl input_ids (sampling eos)) ;;
  first <- call (EvGetItem outputs 0) (Tensor_getitem E outputs 0) ;;
  response <- call (EvDecode tok first) (Tokenizer_decode E tok first) ;;
  extract_answer response.

Definition generate_response (question : str) : M str :=
  mdl <- get_model ;;
  tok <- get_tokenizer ;;
  match mdl, tok with
  | Some m, Some t =>
      try_except
        (generate_steps (obj t) (obj m) question)
        (fun e =>
           print (MsgErrorGenerating e) ;;
           ret TECHNICAL_DIFFICULTIES)
  | _, _ => ret NOT_READY
  end.

End Generate.

(** ** [analyze_sentiment], lines 109-128 *)

Definition positive_words : list str :=
  map lit ["good"; "great"; "excellent"; "amazing"; "wonderful"; "fantastic";
           "perfect"; "outstanding"; "brilliant"; "superb"; "satisfied";
           "happy"; "pleased"; "impressed"; "helpful"; "efficient"]%string.

Definition negative_words : list str :=
  map lit ["bad"; "terrible"; "awful"; "horrible"; "disappointing";
           "frustrated"; "angry"; "upset"; "poor"; "inadequate"; "useless";
           "slow"; "delayed"; "problem"; "issue"; "complaint"]%string.

(** The builtin [sum] over a list of numbers. *)
Definition sum (l : list nat) : nat := fold_left Nat.add l 0.

(** [sum(1 for word in words if word in text_lower)]. *)
Definition score (words : list str) (text_lower : str) : nat :=
  sum (map (fun _ => 1) (filter (fun word => contains word text_lower) words)).

Section Sentiment.
(** [text.lower()]: Python's lower-casing of a Unicode string, taken as
    given; [PyStr.ascii_lower] is the instance for ASCII text. *)
Variable lower : str -> str.

Definition analyze_sentiment (text : str) : str :=
  let text_lower := lower text in
  let positive_score := score positive_words text_lower in
  let negative_score := score negative_words text_lower in
  if negative_score <? positive_score then lit "Positive"
  else if positive_score <? negative_score then lit "Negative"
  else lit "Neutral".

End Sentiment.

End App.

(* ================================================================== *)
(** * Vocabulary of the specification *)
(* ================================================================== *)

Module Spec.
Import PyStr Py App.

(** [sub] occurs in [s] at position [p]. *)
Definition occurs_at (sub s : str) (p : nat) : Prop :=
  startswith sub (skipn p s) = true.

(** [sub] is a substring of [s]. *)
Definition substring (sub s : str) : Prop :=
  exists pre post, s = pre ++ sub ++ post.

(** [p] is the position of the last occurrence of [sub] in [s]. *)
Definition last_occurrence (sub s : str) (p : nat) : Prop :=
  occurs_at sub s p /\ forall q, p < q -> ~ occurs_at sub s q.

(** [t] is [s] with the white space at both ends removed. *)
Definition trimmed (s t : str) : Prop :=
  exists l r,
    s = l ++ t ++ r /\
    forallb isspace l = true /\ forallb isspace r = true /\
    (forall c t', t = c :: t' -> isspace c = false) /\
    (forall c t', t = t' ++ [c] -> isspace c = false).

(** The number of words of a list that are substrings of [s], each word of
    the list counted once however often it occurs in [s]. *)
Inductive keyword_count (s : str) : list str -> nat -> Prop :=
| kc_nil : keyword_count s [] 0
| kc_hit w ws n : substring w s -> keyword_count s ws n -> keyword_count s (w :: ws) (S n)
| kc_miss w ws n : ~ substring w s -> keyword_count s ws n -> keyword_count s (w :: ws) n.

(** The number of positions at which [sub] occurs in [s]. *)
Fixpoint occurrences (sub s : str) : nat :=
  (if startswith sub s then 1 else 0) +
  match s with
  | [] => 0
  | _ :: s' => occurrences sub s'
  end.

(** The words of both lists. *)
Definition all_keywords : list str := positive_words ++ negative_words.

(** Repeating a keyword within the text never changes either score: writing
    a listed word once more, anywhere in a (lower-cased) text in which it
    occurs already, leaves both scores as they were. *)
Definition repetition_keeps_scores : Prop :=
  forall (pre post w : str),
    In w all_keywords -> substring w (pre ++ post) ->
    score positive_words (pre ++ w ++ post) = score positive_words (pre ++ post) /\
    score negative_words (pre ++ w ++ post) = score negative_words (pre ++ post).

(** The words of a list are pairwise different. *)
Fixpoint distinct (l : list str) : bool :=
  match l with
  | [] => true
  | x :: l' => negb (existsb (eqb x) l') && distinct l'
  end.

(** No proper suffix of [sep] starts like [sep]: here, the first character of
    [sep] does not occur again in it, so two occurrences never overlap. *)
Definition unbordered (sep : str) : bool :=
  match sep with
  | [] => false
  | c :: sep' => negb (existsb (N.eqb c) sep')
  end.

(** Some step of the preferred acquisition (lines 32-51) raises. *)
Definition primary_fails (E : env) (dev : Device) : Prop :=
  match AutoTokenizer_from_pretrained E primary_model_path with
  | Raise _ => True
  | Ok _ =>
      match dev with
      | Cuda =>
          match BitsAndBytesConfig E with
          | Raise _ => True
          | Ok cfg =>
              match AutoModelForCausalLM_from_pretrained E primary_model_path (Quantized cfg) with
              | Raise _ => True
              | Ok _ => False
              end
          end
      | Cpu =>
          match AutoModelForCausalLM_from_pretrained E primary_model_path Float32 with
          | Raise _ => True
          | Ok m => match Model_to E m Cpu with Raise _ => True | Ok _ => False end
          end
      end
  end.

(** Some step of the fallback acquisition (lines 61-63) raises. *)
Definition fallback_fails (E : env) (dev : Device) : Prop :=
  match AutoTokenizer_from_pretrained E fallback_model_path with
  | Raise _ => True
  | Ok _ =>
      match AutoModelForCausalLM_from_pretrained E fallback_model_path NoKwargs with
      | Raise _ => True
      | Ok m => match Model_to E m dev with Raise _ => True | Ok _ => False end
      end
  end.

(** The text decoded on line 99 when every call of lines 86-99 returns, and
    the exception of the first call that raises otherwise. *)
Definition decoded_text (E : env) (tok : Tokenizer) (mdl : Model)
    (dev : option Device) (question : str) : res str :=
  match Tokenizer_call E tok (prompt_of question) 512 with
  | Raise e => Raise e
  | Ok inputs =>
  match BatchEncoding_to E inputs dev with
  | Raise e => Raise e
  | Ok inputs' =>
  match torch_no_grad E with
  | Raise e => Raise e
  | Ok _ =>
  match BatchEncoding_input_ids E inputs' with
  | Raise e => Raise e
  | Ok input_ids =>
  match Tokenizer_eos_token_id E tok with
  | Raise e => Raise e
  | Ok eos =>
  match Model_generate E mdl input_ids (sampling eos) with
  | Raise e => Raise e
  | Ok outputs =>
  match Tensor_getitem E outputs 0 with
  | Raise e => Raise e
  | Ok first => Tokenizer_decode E tok first
  end end end end end end end.

(** The device chosen on line 27. *)
Definition device_of (available : bool) : Device := if available then Cuda else Cpu.

(** How often an acquisition of the tokenizer, respectively of the weights,
    of the model at [path] was started. *)
Definition is_tokenizer_load (path : str) (ev : event) : bool :=
  match ev with EvLoadTokenizer p => eqb p path | _ => false end.
Definition is_model_load (path : str) (ev : event) : bool :=
  match ev with EvLoadModel p _ => eqb p path | _ => false end.
Definition count_events (f : event -> bool) (t : list event) : nat :=
  List.length (filter f t).

(** The reading of device detection as having no failure mode: when the
    availability query raises, initialisation still returns and has selected
    the CPU. *)
Definition probe_failure_degrades : Prop :=
  forall (E : env) (g : globals) (e : exn),
    cuda_is_available E = Raise e ->
    exists b, result (initialize_model E g) = Ok b /\
              device (final (initialize_model E g)) = Some Cpu.

(** Both globals are set. *)
Definition both_set (g : globals) : Prop :=
  tokenizer g <> None /\ model g <> None.

(** The Absent state: no model handle at all. *)
Definition absent (g : globals) : Prop :=
  tokenizer g = None /\ model g = None.

(** Tokenizer and model, when both set, come from the same model path. *)
Definition same_origin (g : globals) : Prop :=
  forall t m, tokenizer g = Some t -> model g = Some m -> origin t = origin m.

End Spec.

(* ================================================================== *)
(** * Test doubles *)
(* ================================================================== *)

(** Environments in the manner of mocked collaborators, used to run the
    program on concrete inputs. *)
Module Mock.
Import PyStr Py App.

Definition make (available : res bool)
    (tokenizer_primary tokenizer_fallback : res Tokenizer)
    (config : res QuantConfig)
    (model_primary model_fallback : res Model)
    (move : Model -> res unit)
    (decoded : res str) : env :=
  {| cuda_is_available := available;
     AutoTokenizer_from_pretrained :=
       fun path => if eqb path primary_model_path then tokenizer_primary
                   else tokenizer_fallback;
     BitsAndBytesConfig := config;
     AutoModelForCausalLM_from_pretrained :=
       fun path _ => if eqb path primary_model_path then model_primary
                     else model_fallback;
     Model_to := fun m _ => move m;
     Tokenizer_call := fun _ _ _ => Ok (BatchEncodingObj 0);
     BatchEncoding_to := fun b _ => Ok b;
     BatchEncoding_input_ids := fun _ => Ok (TensorObj 0);
     torch_no_grad := Ok tt;
     Tokenizer_eos_token_id := fun _ => Ok (Some 0);
     Model_generate := fun _ _ _ => Ok (TensorObj 1);
     Tensor_getitem := fun _ _ => Ok (TensorObj 2);
     Tokenizer_decode := fun _ _ => decoded |}.

Definition granite_tokenizer := TokenizerObj 1.
Definition granite_model := ModelObj 1.
Definition dialogpt_tokenizer := TokenizerObj 2.
Definition dialogpt_model := ModelObj 2.

Definition failure (what : string) {A : Type} : res A := Raise (Exception what).

(** Text a model could give back for the question "When is the office open?":
    the prompt, then an answer that itself repeats the marker. *)
Definition sample_output : str :=
  prompt_of (lit "When is the office open?") ++
  lit " Weekdays. Answer:  From 9 to 5.  " ++ newline.

(** Everything works, no accelerator. *)
Definition healthy : env :=
  make (Ok false) (Ok granite_tokenizer) (Ok dialogpt_tokenizer)
       (Ok (QuantConfigObj 0)) (Ok granite_model) (Ok dialogpt_model)
       (fun _ => Ok tt) (Ok sample_output).

(** Decoding fails. *)
Definition decode_error : env :=
  make (Ok false) (Ok granite_tokenizer) (Ok dialogpt_tokenizer)
       (Ok (QuantConfigObj 0)) (Ok granite_model) (Ok dialogpt_model)
       (fun _ => Ok tt) (failure "invalid token id").

(** The availability query itself raises. *)
Definition probe_error : env :=
  make (failure "CUDA driver initialization failed")
       (Ok granite_tokenizer) (Ok dialogpt_tokenizer)
       (Ok (QuantConfigObj 0)) (Ok granite_model) (Ok dialogpt_model)
       (fun _ => Ok tt) (Ok sample_output).

(** The preferred model cannot be fetched; the fallback works. *)
Definition granite_missing : env :=
  make (Ok false) (failure "no such repository") (Ok dialogpt_tokenizer)
       (Ok (QuantConfigObj 0)) (failure "no such repository") (Ok dialogpt_model)
       (fun _ => Ok tt) (Ok sample_output).

(** Nothing can be fetched. *)
Definition offline : env :=
  make (Ok false) (failure "connection refused") (failure "connection refused")
       (Ok (QuantConfigObj 0)) (failure "connection refused")
       (failure "connection refused")
       (fun _ => Ok tt) (Ok sample_output).

(** The preferred tokenizer is fetched, nothing else is. *)
Definition tokenizer_only : env :=
  make (Ok false) (Ok granite_tokenizer) (failure "connection refused")
       (Ok (QuantConfigObj 0)) (failure "out of memory")
       (failure "connection refused")
       (fun _ => Ok tt) (Ok sample_output).

(** An accelerator is present, the quantisation library is not; the fallback
    is fetched but cannot be moved to the accelerator. *)
Definition fallback_move_fails : env :=
  make (Ok true) (Ok granite_tokenizer) (Ok dialogpt_tokenizer)
       (failure "bitsandbytes is not installed")
       (Ok granite_model) (Ok dialogpt_model)
       (fun _ => failure "CUDA out of memory") (Ok sample_output).

(** No accelerator; the preferred pair is fetched but placing the model
    raises, then the fallback tokenizer is fetched and the fallback weights
    are not. *)
Definition mixed_pair : env :=
  make (Ok false) (Ok granite_tokenizer) (Ok dialogpt_tokenizer)
       (Ok (QuantConfigObj 0)) (Ok granite_model) (failure "connection refused")
       (fun _ => failure "out of memory") (Ok sample_output).

(** A state with the preferred pair loaded on the CPU. *)
Definition granite_loaded : globals :=
  {| tokenizer := Some {| origin := primary_model_path; obj := granite_tokenizer |};
     model := Some {| origin := primary_model_path; obj := granite_model |};
     device := Some Cpu |}.

End Mock.

(* ================================================================== *)
(** * The web layer: lines 17-20 and the route handlers, lines 132-235 *)
(* ================================================================== *)

(** The handlers run against the Flask session, the three in-memory stores
    and the model globals.  [session] is the session dictionary: the entries
    the program writes and, under Flask's key ['_flashes'], the pending
    flash messages that [flash] adds.  What a handler returns is described
    by the call that produces it: [render_template] with its template and
    keyword arguments, or [redirect(url_for(endpoint))]. *)
Module Web.
Import PyStr Py App.

(** ** Dictionaries with string keys, in insertion order *)

Definition dict (V : Type) : Type := list (str * V).

(** [d.get(key)], [None] when the key is missing. *)
Fixpoint dict_get {V : Type} (d : dict V) (key : str) : option V :=
  match d with
  | [] => None
  | (k, v) :: d' => if eqb k key then Some v else dict_get d' key
  end.

(** [d.get(key, default)]. *)
Definition dict_get_default {V : Type} (d : dict V) (key : str) (default : V) : V :=
  match dict_get d key with
  | Some v => v
  | None => default
  end.

(** [key in d]. *)
Definition dict_in {V : Type} (key : str) (d : dict V) : bool :=
  match dict_get d key with
  | Some _ => true
  | None => false
  end.

(** [d[key] = v]: replaces the value of an existing key in place, adds a new
    key at the end. *)
Fixpoint dict_set {V : Type} (d : dict V) (key : str) (v : V) : dict V :=
  match d with
  | [] => [(key, v)]
  | (k, v') :: d' => if eqb k key then (k, v) :: d' else (k, v') :: dict_set d' key v
  end.

(** [l[-n:]]: the last [n] items, all of them when there are fewer. *)
Definition slice_last {A : Type} (n : nat) (l : list A) : list A :=
  skipn (List.length l - n) l.

(** ** Values *)

(** What the session holds: the booleans and strings the program stores,
    and the list of (category, message) pairs Flask keeps under
    ['_flashes']. *)
Inductive session_value : Type :=
| VBool (b : bool)
| VStr (s : str)
| VFlashes (l : list (str * str)).

(** The dictionaries built on lines 161-165 and 195-199. *)
Record chat_entry : Type := {
  chat_timestamp : str;
  chat_question : str;
  chat_response : str
}.

Record concern_entry : Type := {
  concern_timestamp : str;
  concern_text : str;
  concern_status : str
}.

(** A keyword argument of [render_template]. *)
Inductive template_value : Type :=
| TStr (s : str)
| TBool (b : bool)
| TInt (n : nat)
| TCounts (d : dict nat)
| TConcerns (l : list concern_entry).

Inductive response : Type :=
| Render (template : str) (context : list (str * template_value))
| Redirect (endpoint : str).

(** [request.method] and [request.form]; [form.get] gives the first value
    under a key. *)
Record request : Type := {
  method : str;
  form : dict str
}.

(** ** State *)

Record world : Type := {
  session : dict session_value;
  chat_history : list chat_entry;
  sentiment_data : dict nat;
  concerns : list concern_entry;
  ai : globals
}.

(** Lines 13-20, with the session of a new visitor. *)
Definition initial_world : world :=
  {| session := [];
     chat_history := [];
     sentiment_data := [(lit "positive", 0); (lit "neutral", 0); (lit "negative", 0)];
     concerns := [];
     ai := initial_globals |}.

Inductive web_event : Type :=
| Ai (e : event)                        (* a call made by [generate_response] *)
| Flashed (message category : str).     (* [flash(message, category)] *)

(** ** The monad of the handlers *)

Definition W (A : Type) : Type := world -> res A * world * list web_event.

Definition wret {A} (a : A) : W A := fun w => (Ok a, w, []).

Definition wbind {A B} (c : W A) (k : A -> W B) : W B :=
  fun w =>
    match c w with
    | (Ok a, w1, t1) => let '(r, w2, t2) := k a w1 in (r, w2, t1 ++ t2)
    | (Raise e, w1, t1) => (Raise e, w1, t1)
    end.

Definition wraise {A} (e : exn) : W A := fun w => (Raise e, w, []).

(** Code of the model layer, run on the model globals. *)
Definition run_ai {A} (c : M A) : W A :=
  fun w =>
    let '(r, g, t) := c (ai w) in
    (r,
     {| session := session w; chat_history := chat_history w;
        sentiment_data := sentiment_data w; concerns := concerns w; ai := g |},
     map Ai t).

(** [session.get('_flashes', [])].  Only [flash] writes that key, so what it
    holds is a list of pairs. *)
Definition pending_flashes (s : dict session_value) : list (str * str) :=
  match dict_get s (lit "_flashes") with
  | Some (VFlashes l) => l
  | _ => []
  end.

(** Flask's [flash(message, category)]: the pair is appended to the list
    kept in the session under ['_flashes'], and the message is signalled. *)
Definition flash (message category : str) : W unit :=
  fun w =>
    let flashes := pending_flashes (session w) ++ [(category, message)] in
    (Ok tt,
     {| session := dict_set (session w) (lit "_flashes") (VFlashes flashes);
        chat_history := chat_history w;
        sentiment_data := sentiment_data w; concerns := concerns w;
        ai := ai w |},
     [Flashed message category]).

Definition get_session : W (dict session_value) := fun w => (Ok (session w), w, []).
Definition get_chat_history : W (list chat_entry) := fun w => (Ok (chat_history w), w, []).
Definition get_sentiment_data : W (dict nat) := fun w => (Ok (sentiment_data w), w, []).
Definition get_concerns : W (list concern_entry) := fun w => (Ok (concerns w), w, []).

Definition put_session (s : dict session_value) : W unit :=
  fun w => (Ok tt,
            {| session := s; chat_history := chat_history w;
               sentiment_data := sentiment_data w; concerns := concerns w;
               ai := ai w |}, []).
Definition put_chat_history (h : list chat_entry) : W unit :=
  fun w => (Ok tt,
            {| session := session w; chat_history := h;
               sentiment_data := sentiment_data w; concerns := concerns w;
               ai := ai w |}, []).
Definition put_sentiment_data (d : dict nat) : W unit :=
  fun w => (Ok tt,
            {| session := session w; chat_history := chat_history w;
               sentiment_data := d; concerns := concerns w; ai := ai w |}, []).
Definition put_concerns (c : list concern_entry) : W unit :=
  fun w => (Ok tt,
            {| session := session w; chat_history := chat_history w;
               sentiment_data := sentiment_data w; concerns := c; ai := ai w |}, []).

Definition outcome {A} (x : res A * world * list web_event) : res A := fst (fst x).
Definition after {A} (x : res A * world * list web_event) : world := snd (fst x).
Definition trace {A} (x : res A * world * list web_event) : list web_event := snd x.

Declare Scope web_scope.
Delimit Scope web_scope with web.
Notation "x <- c ;; k" := (wbind c (fun x => k))
  (at level 61, c at next level, right associativity) : web_scope.
Notation "c ;; k" := (wbind c (fun _ => k))
  (at level 61, right associativity) : web_scope.
Local Open Scope web_scope.

(** ** Small steps shared by the handlers *)

(** ['logged_in' not in session]. *)
Definition not_logged_in : W bool :=
  s <- get_session ;;
  wret (negb (dict_in (lit "logged_in") s)).

(** [session[key] = v]. *)
Definition session_set (key : str) (v : session_value) : W unit :=
  s <- get_session ;;
  put_session (dict_set s key v).

(** [request.form.get(key, '').strip()]. *)
Definition form_field (req : request) (key : str) : str :=
  strip (dict_get_default (form req) key []).

Definition KeyError : exn := Exception "KeyError".

Section Handlers.
Variable E : env.
Variable lower : str -> str.

(** ** The public pages, lines 132-142 *)

Definition index : W response := wret (Render (lit "index.html") []).
Definition about : W response := wret (Render (lit "about.html") []).
Definition services : W response := wret (Render (lit "services.html") []).

(** ** [chat], lines 144-148 *)

Definition chat : W response :=
  out <- not_logged_in ;;
  if (out : bool) then wret (Redirect (lit "login"))
  else wret (Render (lit "chat.html") []).

(** ** [ask_question], lines 150-168; [now] is the formatted time of the call *)

Definition ask_question (req : request) (now : str) : W response :=
  out <- not_logged_in ;;
  if (out : bool) then wret (Redirect (lit "login"))
  else
    let question := form_field req (lit "question") in
    match question with
    | [] => wret (Render (lit "chat.html")
                    [(lit "error", TStr (lit "Please enter a question."))])
    | _ :: _ =>
        response <- run_ai (generate_response E question) ;;
        let chat_entry := {| chat_timestamp := now;
                             chat_question := question;
                             chat_response := response |} in
        history <- get_chat_history ;;
        put_chat_history (history ++ [chat_entry]) ;;
        wret (Render (lit "chat.html")
                [(lit "question_response", TStr response);
                 (lit "user_question", TStr question)])
    end.

(** ** [submit_feedback], lines 170-184 *)

Definition submit_feedback (req : request) : W response :=
  out <- not_logged_in ;;
  if (out : bool) then wret (Redirect (lit "login"))
  else
    let feedback_text := form_field req (lit "feedback") in
    match feedback_text with
    | [] => wret (Render (lit "chat.html")
                    [(lit "error", TStr (lit "Please enter feedback text."))])
    | _ :: _ =>
        let sentiment := analyze_sentiment lower feedback_text in
        let sentiment_key := lower sentiment in
        data <- get_sentiment_data ;;
        (if dict_in sentiment_key data then
           match dict_get data sentiment_key with
           | Some n => put_sentiment_data (dict_set data sentiment_key (n + 1))
           | None => wraise KeyError
           end
         else wret tt) ;;
        wret (Render (lit "chat.html")
                [(lit "sentiment", TStr sentiment);
                 (lit "feedback_text", TStr feedback_text)])
    end.

(** ** [submit_concern], lines 186-202 *)

Definition submit_concern (req : request) (now : str) : W response :=
  out <- not_logged_in ;;
  if (out : bool) then wret (Redirect (lit "login"))
  else
    let concern_text := form_field req (lit "concern") in
    match concern_text with
    | [] => wret (Render (lit "chat.html")
                    [(lit "error", TStr (lit "Please enter your concern."))])
    | _ :: _ =>
        let concern_entry := {| concern_timestamp := now;
                                concern_text := concern_text;
                                concern_status := lit "Open" |} in
        all <- get_concerns ;;
        put_concerns (all ++ [concern_entry]) ;;
        wret (Render (lit "chat.html") [(lit "concern_submitted", TBool true)])
    end.

(** ** [dashboard], lines 204-213 *)

Definition dashboard : W response :=
  out <- not_logged_in ;;
  if (out : bool) then wret (Redirect (lit "login"))
  else
    all <- get_concerns ;;
    let recent_concerns := match all with [] => [] | _ :: _ => slice_last 10 all end in
    data <- get_sentiment_data ;;
    history <- get_chat_history ;;
    wret (Render (lit "dashboard.html")
            [(lit "sentiment_data", TCounts data);
             (lit "recent_concerns", TConcerns recent_concerns);
             (lit "total_interactions", TInt (List.length history))]).

(** ** [login], lines 215-229 *)

Definition login (req : request) : W response :=
  if eqb (method req) (lit "POST") then
    let username := form_field req (lit "username") in
    let password := form_field req (lit "password") in
    if eqb username (lit "admin") && eqb password (lit "password") then
      session_set (lit "logged_in") (VBool true) ;;
      session_set (lit "username") (VStr username) ;;
      flash (lit "Login successful!") (lit "success") ;;
      wret (Redirect (lit "chat"))
    else
      flash (lit "Invalid username or password.") (lit "error") ;;
      wret (Render (lit "login.html") [])
  else wret (Render (lit "login.html") []).

(** ** [logout], lines 231-235 *)

Definition logout : W response :=
  put_session [] ;;
  flash (lit "You have been logged out.") (lit "info") ;;
  wret (Redirect (lit "index")).

(** ** Serving requests *)

(** The view functions registered by the [@app.route] decorators. *)
Inductive endpoint : Type :=
| Index | About | Services | Chat | Ask | Feedback | Concern | Dashboard
| Login | Logout.

(** One request: the view it is routed to, the request and the time. *)
Record hit : Type := {
  target : endpoint;
  sent : request;
  clock : str
}.

Definition handle (h : hit) : W response :=
  match target h with
  | Index => index
  | About => about
  | Services => services
  | Chat => chat
  | Ask => ask_question (sent h) (clock h)
  | Feedback => submit_feedback (sent h)
  | Concern => submit_concern (sent h) (clock h)
  | Dashboard => dashboard
  | Login => login (sent h)
  | Logout => logout
  end.

(** The requests of one visitor served one after the other, the session
    going from each response into the next request; a request whose view
    raises is answered with an error by Flask and the next one is served on
    the state it left. *)
Fixpoint serve (hits : list hit) (w : world) : world * list web_event :=
  match hits with
  | [] => (w, [])
  | h :: hits' =>
      let '(_, w1, t1) := handle h w in
      let '(w2, t2) := serve hits' w1 in
      (w2, t1 ++ t2)
  end.

(** The world as a request finds it when it arrives with the session
    [cookie]: Flask reads the session from the cookie the client sends. *)
Definition with_session (cookie : dict session_value) (w : world) : world :=
  {| session := cookie; chat_history := chat_history w;
     sentiment_data := sentiment_data w; concerns := concerns w; ai := ai w |}.

(** Requests of any number of visitors, each arriving with its own session. *)
Fixpoint serve_all (arrivals : list (dict session_value * hit)) (w : world)
    : world * list web_event :=
  match arrivals with
  | [] => (w, [])
  | (cookie, h) :: arrivals' =>
      let '(_, w1, t1) := handle h (with_session cookie w) in
      let '(w2, t2) := serve_all arrivals' w1 in
      (w2, t1 ++ t2)
  end.

End Handlers.

End Web.

(* ================================================================== *)
(** * Vocabulary for the further properties *)
(* ================================================================== *)

Module MoreSpec.
Import PyStr Py App Web.

(** Only white space, or nothing at all. *)
Definition blank (s : str) : Prop := forallb isspace s = true.

(** ['logged_in'] is not a key of the session. *)
Definition logged_out (w : world) : Prop :=
  dict_in (lit "logged_in") (session w) = false.

(** The three in-memory stores. *)
Definition stores (w : world) : list chat_entry * dict nat * list concern_entry :=
  (chat_history w, sentiment_data w, concerns w).

(** The sum of the counters. *)
Definition total (d : dict nat) : nat := list_sum (map snd d).

(** The counters are those of line 19, in that order. *)
Definition three_counters (d : dict nat) : Prop :=
  map fst d = [lit "positive"; lit "neutral"; lit "negative"].

(** [lower] does to text of ASCII characters what Python's lower-casing
    does: it maps the capital letters to the small ones. *)
Definition lower_on_ascii (lower : str -> str) : Prop :=
  forall s, forallb (fun c => (c <? 128)%N) s = true -> lower s = ascii_lower s.

(** The credentials of line 221, as posted. *)
Definition credentials_ok (req : request) : bool :=
  eqb (form_field req (lit "username")) (lit "admin") &&
  eqb (form_field req (lit "password")) (lit "password").

(** A request that logs in. *)
Definition logs_in (h : hit) : bool :=
  match target h with
  | Login => eqb (method (sent h)) (lit "POST") && credentials_ok (sent h)
  | _ => false
  end.

Definition is_ask (h : hit) : bool :=
  match target h with Ask => true | _ => false end.
Definition is_concern (h : hit) : bool :=
  match target h with Concern => true | _ => false end.
Definition is_feedback (h : hit) : bool :=
  match target h with Feedback => true | _ => false end.

(** 1 for true, 0 for false. *)
Definition bump (b : bool) : nat := if b then 1 else 0.

Definition is_ai (ev : web_event) : bool :=
  match ev with Ai _ => true | Flashed _ _ => false end.

(** [l1] is an initial segment of [l2]. *)
Definition extends {A : Type} (l1 l2 : list A) : Prop :=
  exists added, l2 = l1 ++ added.

Definition is_quantized_load (ev : event) : bool :=
  match ev with
  | EvBitsAndBytesConfig => true
  | EvLoadModel _ (Quantized _) => true
  | _ => false
  end.

Definition is_float32_load (ev : event) : bool :=
  match ev with
  | EvLoadModel _ Float32 => true
  | _ => false
  end.

End MoreSpec.

(** Further test doubles. *)
Module MoreMock.
Import PyStr Py App Web.

(** A question that itself contains the marker. *)
Definition tricky_question : str := lit "What does Answer: mean?".

(** The model echoes the prompt and goes on with a completion. *)
Definition echoing : env :=
  Mock.make (Ok false) (Ok Mock.granite_tokenizer) (Ok Mock.dialogpt_tokenizer)
    (Ok (QuantConfigObj 0)) (Ok Mock.granite_model) (Ok Mock.dialogpt_model)
    (fun _ => Ok tt)
    (Ok (prompt_of tricky_question ++ lit "  It marks the reply. " ++ newline)).

(** An accelerator is present and everything works. *)
Definition accelerated : env :=
  Mock.make (Ok true) (Ok Mock.granite_tokenizer) (Ok Mock.dialogpt_tokenizer)
    (Ok (QuantConfigObj 0)) (Ok Mock.granite_model) (Ok Mock.dialogpt_model)
    (fun _ => Ok tt) (Ok Mock.sample_output).

Definition post (fields : dict str) : request :=
  {| method := lit "POST"; form := fields |}.
Definition get : request := {| method := lit "GET"; form := [] |}.

(** A visitor who is logged in, with the preferred model loaded. *)
Definition member : world :=
  {| session := [(lit "logged_in", VBool true); (lit "username", VStr (lit "admin"))];
     chat_history := [];
     sentiment_data := sentiment_data initial_world;
     concerns := [];
     ai := Mock.granite_loaded |}.

Definition noon : str := lit "2024-05-01 12:00:00".

(** The [n]-th of a series of concerns, told apart by the length of its
    text. *)
Definition numbered (n : nat) : concern_entry :=
  {| concern_timestamp := noon;
     concern_text := repeat 120%N (S n);
     concern_status := lit "Open" |}.

(** A member who finds twelve concerns on record. *)
Definition busy : world :=
  {| session := session member;
     chat_history := [];
     sentiment_data := sentiment_data initial_world;
     concerns := map numbered (seq 0 12);
     ai := Mock.granite_loaded |}.

(** A visitor who is logged in although no model could be loaded. *)
Definition member_without_model : world :=
  {| session := session member;
     chat_history := [];
     sentiment_data := sentiment_data initial_world;
     concerns := [];
     ai := initial_globals |}.

End MoreMock.

(* ================================================================== *)
(** * Facts about the string operations *)
(* ================================================================== *)

Module PyStrFacts.
Import PyStr Spec.

Lemma startswith_app (sub post : str) : startswith sub (sub ++ post) = true.
Proof.
  induction sub as [|a sub IH]; simpl; [reflexivity|].
  now rewrite N.eqb_refl, IH.
Qed.

Lemma startswith_inv (sub s : str) :
  startswith sub s = true -> exists post, s = sub ++ post.
Proof.
  revert s; induction sub as [|a sub IH]; intros s H; simpl in *.
  - now exists s.
  - destruct s as [|b s]; [discriminate|].
    apply andb_true_iff in H as [Hab Hs].
    apply N.eqb_eq in Hab; subst b.
    destruct (IH _ Hs) as [post ->]. now exists post.
Qed.

Lemma startswith_length (sub s : str) :
  startswith sub s = true -> List.length sub <= List.length s.
Proof.
  intros H. destruct (startswith_inv _ _ H) as [post ->].
  rewrite length_app. lia.
Qed.

Lemma startswith_contains (sub s : str) :
  startswith sub s = true -> contains sub s = true.
Proof. intros H. destruct s; simpl; now rewrite H. Qed.

(** The operator [in] decides the substring relation. *)
Lemma contains_substring (sub s : str) :
  contains sub s = true <-> substring sub s.
Proof.
  split.
  - induction s as [|c s IH]; simpl; intros H.
    + rewrite orb_false_r in H. destruct (startswith_inv _ _ H) as [post E].
      now exists [], post.
    + apply orb_true_iff in H as [H|H].
      * destruct (startswith_inv _ _ H) as [post E]. now exists [], post.
      * destruct (IH H) as (pre & post & ->). now exists (c :: pre), post.
  - intros (pre & post & ->).
    induction pre as [|c pre IH]; simpl.
    + apply startswith_contains, startswith_app.
    + rewrite IH. apply orb_true_r.
Qed.

Lemma contains_occurs (sub s : str) :
  contains sub s = true <-> exists p, occurs_at sub s p.
Proof.
  unfold occurs_at. split.
  - induction s as [|c s IH]; simpl; intros H.
    + exists 0. now rewrite orb_false_r in H.
    + apply orb_true_iff in H as [H|H].
      * now exists 0.
      * destruct (IH H) as [p Hp]. now exists (S p).
  - intros [p Hp]. revert p Hp.
    induction s as [|c s IH]; intros p Hp; simpl.
    + rewrite skipn_nil in Hp. now rewrite Hp.
    + destruct p as [|p]; simpl in Hp.
      * now rewrite Hp.
      * rewrite (IH _ Hp). apply orb_true_r.
Qed.

Lemma occurs_at_nil (sub : str) (p : nat) : sub <> [] -> ~ occurs_at sub [] p.
Proof.
  unfold occurs_at. rewrite skipn_nil. destruct sub; [congruence|discriminate].
Qed.

Lemma occurs_at_bound (sub s : str) (p : nat) :
  sub <> [] -> occurs_at sub s p -> p + List.length sub <= List.length s.
Proof.
  unfold occurs_at. intros Hne H.
  apply startswith_length in H. rewrite length_skipn in H.
  destruct sub; [congruence|]. simpl in *. lia.
Qed.

(** Every string that contains [sub] has a last occurrence of it. *)
Lemma last_occurrence_exists (sub s : str) :
  sub <> [] -> contains sub s = true -> exists p, last_occurrence sub s p.
Proof.
  intros Hne.
  induction s as [|c s IH]; simpl; intros H.
  - rewrite orb_false_r in H. destruct sub; [congruence|discriminate].
  - destruct (contains sub s) eqn:Hs.
    + destruct (IH eq_refl) as [p [Hp Hlast]].
      exists (S p). split; [exact Hp|].
      intros [|q] Hq; [lia|]. apply (Hlast q). lia.
    + rewrite orb_false_r in H. exists 0. split; [exact H|].
      intros [|q] Hq Hocc; [lia|].
      assert (contains sub s = true) by (apply contains_occurs; now exists q).
      congruence.
Qed.

Lemma last_occurrence_unique (sub s : str) (p q : nat) :
  last_occurrence sub s p -> last_occurrence sub s q -> p = q.
Proof.
  intros [Hp Lp] [Hq Lq].
  destruct (Nat.lt_trichotomy p q) as [H|[H|H]]; [|exact H|].
  - now destruct (Lp q H).
  - now destruct (Lq p H).
Qed.

(** ** [find] *)

Lemma find_some (sub s : str) (i : nat) :
  find sub s = Some i ->
  occurs_at sub s i /\ forall j, j < i -> ~ occurs_at sub s j.
Proof.
  unfold occurs_at. revert i.
  induction s as [|c s IH]; intros i; simpl.
  - destruct (startswith sub []) eqn:H; [|discriminate].
    intros [= <-]. split; [exact H|]. intros j Hj; lia.
  - destruct (startswith sub (c :: s)) eqn:H.
    + intros [= <-]. split; [exact H|]. intros j Hj; lia.
    + destruct (find sub s) as [i'|]; [|discriminate]. simpl.
      intros [= <-]. destruct (IH _ eq_refl) as [Hi Hj]. split; [exact Hi|].
      intros [|j] Hlt; simpl; [congruence|]. apply Hj. lia.
Qed.

Lemma find_none (sub s : str) :
  find sub s = None <-> contains sub s = false.
Proof.
  induction s as [|c s IH]; simpl.
  - destruct (startswith sub []); simpl; split; congruence.
  - destruct (startswith sub (c :: s)); simpl; [split; congruence|].
    rewrite <- IH. destruct (find sub s); simpl; split; congruence.
Qed.

(** ** Occurrences of an unbordered separator do not overlap *)

Lemma startswith_skipn_head (a t : str) (j : nat) :
  startswith a t = true -> j < List.length a ->
  exists x rest, skipn j t = x :: rest /\ In x a.
Proof.
  revert t j. induction a as [|x a IH]; intros t j H Hj; simpl in *; [lia|].
  destruct t as [|y t]; [discriminate|].
  apply andb_true_iff in H as [Hxy Ht]. apply N.eqb_eq in Hxy; subst y.
  destruct j as [|j]; simpl.
  - exists x, t. auto.
  - destruct (IH t j Ht) as (z & rest & -> & Hz); [lia|].
    exists z, rest. auto.
Qed.

Lemma unbordered_no_overlap (sep t : str) (k : nat) :
  unbordered sep = true ->
  startswith sep t = true -> 0 < k < List.length sep ->
  startswith sep (skipn k t) = false.
Proof.
  destruct sep as [|c sep]; [discriminate|]. simpl unbordered.
  intros Hu H Hk. simpl in H, Hk.
  destruct t as [|y t]; [discriminate|].
  apply andb_true_iff in H as [_ Ht].
  destruct k as [|k]; [lia|]. simpl skipn.
  destruct (startswith_skipn_head sep t k Ht) as (x & rest & -> & Hx); [lia|].
  simpl. destruct (N.eqb c x) eqn:Hcx; [|reflexivity].
  apply N.eqb_eq in Hcx; subst x.
  apply negb_true_iff in Hu.
  assert (existsb (N.eqb c) sep = true).
  { apply existsb_exists. exists c. split; [exact Hx|apply N.eqb_refl]. }
  congruence.
Qed.

Lemma occurs_at_skipn (sub s : str) (a q : nat) :
  occurs_at sub (skipn a s) q <-> occurs_at sub s (a + q).
Proof.
  unfold occurs_at. rewrite skipn_skipn. now rewrite (Nat.add_comm q a).
Qed.

(** ** [split] *)

Lemma split_loop_nonempty (fuel : nat) (sep s : str) : split_loop fuel sep s <> [].
Proof. destruct fuel; simpl; [discriminate|]. destruct (find sep s); discriminate. Qed.

Lemma last_item_cons {A : Type} (x : A) (l : list A) :
  l <> [] -> last_item (x :: l) = last_item l.
Proof. destruct l; [congruence|reflexivity]. Qed.

Lemma last_item_some {A : Type} (l : list A) : l <> [] -> exists x, last_item l = Some x.
Proof.
  induction l as [|a l IH]; [congruence|]. intros _.
  destruct l as [|b l]; [now exists a|].
  destruct IH as [x Hx]; [discriminate|]. exists x. exact Hx.
Qed.

(** The last piece of the split is what follows the last occurrence. *)
Lemma split_loop_last (sep : str) :
  unbordered sep = true ->
  forall fuel s p,
    List.length s <= fuel ->
    last_occurrence sep s p ->
    last_item (split_loop fuel sep s) = Some (skipn (p + List.length sep) s).
Proof.
  intros Hu.
  assert (Hne : sep <> []) by (destruct sep; [discriminate|congruence]).
  induction fuel as [|fuel IH]; intros s p Hlen [Hp Hlast].
  - destruct s; [|simpl in Hlen; lia]. now destruct (occurs_at_nil sep p Hne).
  - simpl. destruct (find sep s) as [i|] eqn:Hfind.
    + destruct (find_some _ _ _ Hfind) as [Hi Hfirst].
      assert (Hip : i <= p).
      { destruct (Nat.le_gt_cases i p) as [L|L]; [exact L|]. now destruct (Hfirst p L). }
      rewrite last_item_cons by apply split_loop_nonempty.
      pose proof (occurs_at_bound _ _ _ Hne Hi) as Hb.
      assert (Hsep : 0 < List.length sep) by (destruct sep; [congruence|simpl; lia]).
      destruct (Nat.eq_dec i p) as [->|Hneq].
      * (* the first occurrence is the last one *)
        assert (Hrest : find sep (skipn (p + List.length sep) s) = None).
        { apply find_none. destruct (contains sep (skipn (p + List.length sep) s)) eqn:Hc;
            [|reflexivity].
          apply contains_occurs in Hc as [q Hq]. apply occurs_at_skipn in Hq.
          destruct (Hlast (p + List.length sep + q)); [lia|exact Hq]. }
        destruct fuel; simpl; [reflexivity|]. now rewrite Hrest.
      * (* a later occurrence lies beyond the first one *)
        assert (Hbeyond : i + List.length sep <= p).
        { destruct (Nat.le_gt_cases (i + List.length sep) p) as [L|L]; [exact L|].
          unfold occurs_at in Hi, Hp.
          pose proof (unbordered_no_overlap sep (skipn i s) (p - i) Hu Hi) as Hno.
          rewrite skipn_skipn in Hno. replace (p - i + i) with p in Hno by lia.
          rewrite Hno in Hp by lia. discriminate. }
        rewrite (IH (skipn (i + List.length sep) s) (p - (i + List.length sep))).
        -- rewrite skipn_skipn. f_equal. f_equal. lia.
        -- rewrite length_skipn. lia.
        -- split.
           ++ apply occurs_at_skipn. now replace (i + List.length sep + (p - (i + List.length sep))) with p by lia.
           ++ intros q Hq Hocc. apply occurs_at_skipn in Hocc.
              apply (Hlast (i + List.length sep + q)); [lia|exact Hocc].
    + apply find_none in Hfind.
      assert (contains sep s = true) by (apply contains_occurs; now exists p).
      congruence.
Qed.

(** The fuel given by [split] is enough: more fuel changes nothing. *)
Lemma split_loop_fuel (sep : str) :
  sep <> [] ->
  forall fuel1 fuel2 s,
    List.length s <= fuel1 -> List.length s <= fuel2 ->
    split_loop fuel1 sep s = split_loop fuel2 sep s.
Proof.
  intros Hne.
  assert (Hnil : find sep [] = None) by (destruct sep; [congruence|reflexivity]).
  induction fuel1 as [|fuel1 IH]; intros fuel2 s H1 H2.
  - destruct s; [|simpl in H1; lia].
    destruct fuel2; cbn [split_loop]; [reflexivity|now rewrite Hnil].
  - destruct fuel2 as [|fuel2].
    + destruct s; [|simpl in H2; lia]. cbn [split_loop]. now rewrite Hnil.
    + cbn [split_loop]. destruct (find sep s) as [i|] eqn:Hfind; [|reflexivity].
      f_equal. destruct (find_some _ _ _ Hfind) as [Hi _].
      pose proof (occurs_at_bound _ _ _ Hne Hi).
      assert (0 < List.length sep) by (destruct sep; [congruence|simpl; lia]).
      apply IH; rewrite length_skipn; lia.
Qed.

(** ** [strip] *)

Lemma lstrip_spec (s : str) :
  exists l, s = l ++ lstrip s /\ forallb isspace l = true.
Proof.
  induction s as [|c s IH]; simpl.
  - now exists [].
  - destruct (isspace c) eqn:Hc.
    + destruct IH as (l & E & Hl). exists (c :: l). simpl. rewrite Hc, Hl.
      split; [now f_equal|reflexivity].
    + now exists [].
Qed.

Lemma lstrip_head (s : str) (c : char) (t : str) :
  lstrip s = c :: t -> isspace c = false.
Proof.
  induction s as [|a s IH]; simpl; [discriminate|].
  destruct (isspace a) eqn:Ha; [exact IH|]. now intros [= <- _].
Qed.

Lemma rstrip_spec (s : str) :
  exists r, s = rstrip s ++ r /\ forallb isspace r = true.
Proof.
  induction s as [|c s IH]; simpl.
  - now exists [].
  - destruct IH as (r & E & Hr). destruct (rstrip s) as [|x r0].
    + simpl in E. subst s. destruct (isspace c) eqn:Hc.
      * exists (c :: r). simpl. now rewrite Hc, Hr.
      * now exists r.
    + exists r. split; [|exact Hr]. simpl. now rewrite E at 1.
Qed.

Lemma rstrip_last (s : str) (c : char) (t : str) :
  rstrip s = t ++ [c] -> isspace c = false.
Proof.
  revert t. induction s as [|a s IH]; intros t; simpl.
  - destruct t; discriminate.
  - destruct (rstrip s) as [|x r0].
    + destruct (isspace a) eqn:Ha.
      * destruct t; discriminate.
      * destruct t as [|b t]; simpl.
        -- now intros [= <-].
        -- intros [= _ H]. destruct t; discriminate.
    + destruct t as [|b t]; simpl.
      * discriminate.
      * intros [= _ H]. now apply (IH t).
Qed.

Lemma rstrip_head (s : str) (c : char) (t : str) :
  rstrip s = c :: t -> exists s', s = c :: s'.
Proof.
  destruct s as [|a s]; simpl; [discriminate|].
  destruct (rstrip s).
  - destruct (isspace a); [discriminate|]. intros [= <- _]. now exists s.
  - intros [= <- _]. now exists s.
Qed.

(** [strip] removes exactly the white space at both ends. *)
Lemma strip_trimmed (s : str) : trimmed s (strip s).
Proof.
  unfold strip, trimmed.
  destruct (lstrip_spec s) as (l & El & Hl).
  destruct (rstrip_spec (lstrip s)) as (r & Er & Hr).
  exists l, r. repeat split; try assumption.
  - rewrite <- Er. exact El.
  - intros c t' H. destruct (rstrip_head _ _ _ H) as [s' Hs'].
    now apply (lstrip_head s c s').
  - intros c t' H. now apply (rstrip_last (lstrip s) c t').
Qed.

(** What is trimmed is determined by the string: [trimmed] is functional. *)
Lemma lstrip_app_space (l x : str) :
  forallb isspace l = true -> lstrip (l ++ x) = lstrip x.
Proof.
  induction l as [|c l IH]; simpl; [reflexivity|].
  intros H. apply andb_true_iff in H as [Hc Hl]. rewrite Hc. now apply IH.
Qed.

Lemma rstrip_space (r : str) : forallb isspace r = true -> rstrip r = [].
Proof.
  induction r as [|c r IH]; simpl; [reflexivity|].
  intros H. apply andb_true_iff in H as [Hc Hr]. now rewrite (IH Hr), Hc.
Qed.

Lemma rstrip_app_space (t r : str) :
  forallb isspace r = true ->
  (forall c t', t = t' ++ [c] -> isspace c = false) ->
  rstrip (t ++ r) = t.
Proof.
  intros Hr. induction t as [|a t IH]; intros Hlast; simpl.
  - now apply rstrip_space.
  - rewrite IH.
    + destruct t as [|b t]; [|reflexivity].
      now rewrite (Hlast a [] eq_refl).
    + intros c t' ->. apply (Hlast c (a :: t')). reflexivity.
Qed.

Lemma trimmed_strip (s t : str) : trimmed s t -> t = strip s.
Proof.
  intros (l & r & -> & Hl & Hr & Hhead & Hlast). unfold strip.
  rewrite lstrip_app_space by exact Hl.
  destruct t as [|c t].
  - simpl.
    assert (E : lstrip r = []).
    { clear -Hr. induction r as [|c r IH]; simpl; [reflexivity|].
      simpl in Hr. apply andb_true_iff in Hr as [Hc Hr]. rewrite Hc. now apply IH. }
    now rewrite E.
  - simpl. rewrite (Hhead c t eq_refl).
    symmetry. now apply (rstrip_app_space (c :: t) r).
Qed.

End PyStrFacts.

(* ================================================================== *)
(** * Facts about the program *)
(* ================================================================== *)

Module AppFacts.
Import PyStr Py App Spec PyStrFacts.

Ltac unfold_run :=
  unfold result, final, events, startup, initialize_model, load_primary, load_fallback,
    generate_response, generate_steps,
    bind, try_except, call, print, ret, raise, lift,
    set_tokenizer, set_model, set_device, get_tokenizer, get_model, get_device.

Ltac reduce_run :=
  cbn -[prompt_of extract_answer sampling TECHNICAL_DIFFICULTIES NOT_READY
        primary_model_path fallback_model_path ANSWER] in *.

Ltac case_outcome :=
  match goal with
  | |- context [match ?x with Ok _ => _ | Raise _ => _ end] =>
      let H := fresh "Hcall" in destruct x eqn:H; reduce_run
  | H : context [match ?x with Ok _ => _ | Raise _ => _ end] |- _ =>
      let H := fresh "Hcall" in destruct x eqn:H; reduce_run
  end.

(** ** The answer extraction of lines 100-103 *)

Lemma ANSWER_unbordered : unbordered ANSWER = true.
Proof. reflexivity. Qed.

Lemma ANSWER_nonempty : ANSWER <> [].
Proof. discriminate. Qed.

Lemma split_ANSWER (r : str) :
  split r ANSWER = Some (split_loop (List.length r) ANSWER r).
Proof. reflexivity. Qed.

(** The extraction neither raises, nor touches the globals, nor calls out. *)
Lemma extract_answer_run (r : str) (g : globals) :
  exists s, extract_answer r g = (Ok s, g, []).
Proof.
  unfold extract_answer. destruct (contains ANSWER r) eqn:Hc.
  - rewrite split_ANSWER.
    destruct (last_item_some (split_loop (List.length r) ANSWER r)) as [x Hx].
    { apply split_loop_nonempty. }
    exists (strip x). unfold bind. cbn [lift ret]. rewrite Hx. reflexivity.
  - exists r. reflexivity.
Qed.

Lemma extract_answer_marker (r : str) (g : globals) (p : nat) :
  last_occurrence ANSWER r p ->
  extract_answer r g = (Ok (strip (skipn (p + List.length ANSWER) r)), g, []).
Proof.
  intros Hp. unfold extract_answer.
  assert (Hc : contains ANSWER r = true).
  { apply contains_occurs. exists p. apply Hp. }
  rewrite Hc, split_ANSWER. unfold bind. cbn [lift ret].
  rewrite (split_loop_last ANSWER ANSWER_unbordered (List.length r) r p (le_n _) Hp).
  reflexivity.
Qed.

Lemma extract_answer_no_marker (r : str) (g : globals) :
  contains ANSWER r = false -> extract_answer r g = (Ok r, g, []).
Proof. intros Hc. unfold extract_answer. now rewrite Hc. Qed.

(** ** [generate_response] *)

Lemma generate_steps_result (E : env) (t : Tokenizer) (m : Model) (q : str) (g : globals) :
  result (generate_steps E t m q g) =
  match decoded_text E t m (device g) q with
  | Raise e => Raise e
  | Ok r => result (extract_answer r g)
  end.
Proof.
  unfold decoded_text. unfold_run. reduce_run.
  repeat (case_outcome; try reflexivity).
  match goal with |- context [extract_answer ?r g] =>
    destruct (extract_answer_run r g) as [s ->] end.
  reflexivity.
Qed.

Lemma generate_response_loaded (E : env) (q : str) (g : globals)
    (t : loaded Tokenizer) (m : loaded Model) :
  tokenizer g = Some t -> model g = Some m ->
  result (generate_response E q g) =
  match result (generate_steps E (obj t) (obj m) q g) with
  | Ok s => Ok s
  | Raise _ => Ok TECHNICAL_DIFFICULTIES
  end.
Proof.
  intros Ht Hm. unfold generate_response, bind at 1 2, get_model, get_tokenizer.
  cbn -[generate_steps TECHNICAL_DIFFICULTIES]. rewrite Ht, Hm.
  unfold try_except, result.
  destruct (generate_steps E (obj t) (obj m) q g) as [[[s|e] g1] t1]; reflexivity.
Qed.

(** No exception leaves [generate_response], whatever the collaborators do. *)
Lemma generate_response_total (E : env) (q : str) (g : globals) :
  exists s, result (generate_response E q g) = Ok s.
Proof.
  destruct (tokenizer g) as [t|] eqn:Ht; destruct (model g) as [m|] eqn:Hm.
  - rewrite (generate_response_loaded E q g t m Ht Hm).
    destruct (result (generate_steps E (obj t) (obj m) q g)); eauto.
  - exists NOT_READY. unfold generate_response, bind, get_model, get_tokenizer.
    cbn -[NOT_READY]. now rewrite Hm.
  - exists NOT_READY. unfold generate_response, bind, get_model, get_tokenizer.
    cbn -[NOT_READY]. now rewrite Hm, Ht.
  - exists NOT_READY. unfold generate_response, bind, get_model, get_tokenizer.
    cbn -[NOT_READY]. now rewrite Hm.
Qed.

Lemma generate_response_not_ready (E : env) (q : str) (g : globals) :
  tokenizer g = None \/ model g = None ->
  generate_response E q g = (Ok NOT_READY, g, []).
Proof.
  intros H. unfold generate_response, bind, get_model, get_tokenizer.
  cbn -[NOT_READY generate_steps].
  destruct (model g); [|reflexivity].
  destruct (tokenizer g); [|reflexivity].
  destruct H; discriminate.
Qed.

(** C1. [generate_response] always returns a string and never raises: for
    every environment, question and state of the globals the result is
    [Ok s]; and with a tokenizer and a model loaded, when any call made while
    tokenizing, moving the inputs, generating or decoding raises, the string
    returned is the fixed technical-difficulties message. *)
Theorem generate_response_never_raises (E : env) (question : str) (g : globals) :
  (exists s, result (generate_response E question g) = Ok s) /\
  (forall (t : loaded Tokenizer) (m : loaded Model) (e : exn),
      tokenizer g = Some t -> model g = Some m ->
      decoded_text E (obj t) (obj m) (device g) question = Raise e ->
      result (generate_response E question g) = Ok TECHNICAL_DIFFICULTIES).
Proof.
  split; [apply generate_response_total|].
  intros t m e Ht Hm Hd.
  rewrite (generate_response_loaded E question g t m Ht Hm).
  now rewrite generate_steps_result, Hd.
Qed.

Lemma generate_response_never_raises_witness :
  decoded_text Mock.decode_error Mock.granite_tokenizer Mock.granite_model
    (Some Cpu) (lit "When is the office open?")
    = Raise (Exception "invalid token id") /\
  result (generate_response Mock.decode_error (lit "When is the office open?")
            Mock.granite_loaded) = Ok TECHNICAL_DIFFICULTIES.
Proof.
  split; [reflexivity|].
  apply (proj2 (generate_response_never_raises Mock.decode_error
                  (lit "When is the office open?") Mock.granite_loaded)
           {| origin := primary_model_path; obj := Mock.granite_tokenizer |}
           {| origin := primary_model_path; obj := Mock.granite_model |}
           (Exception "invalid token id"));
    reflexivity.
Defined.

(** C6. In the Absent state (no tokenizer, no model) [generate_response]
    returns the one fixed not-ready message for every question, the empty
    string included; it returns normally, leaves the globals as they were and
    calls nothing. *)
Theorem generate_response_absent (E : env) (question : str) (g : globals) :
  absent g ->
  generate_response E question g = (Ok NOT_READY, g, []).
Proof.
  intros [Ht _]. apply generate_response_not_ready. now left.
Qed.

Lemma generate_response_absent_witness :
  absent initial_globals /\
  generate_response Mock.healthy [] initial_globals = (Ok NOT_READY, initial_globals, []).
Proof.
  split; [split; reflexivity|].
  apply generate_response_absent. split; reflexivity.
Defined.

(** C9. Whenever the tokenizer or the model is unset, also when exactly one
    of them is set, [generate_response] returns the not-ready message, leaves
    the globals unchanged and makes no call at all to a tokenizer or a model
    (its trace of events is empty). *)
Theorem generate_response_unset (E : env) (question : str) (g : globals) :
  tokenizer g = None \/ model g = None ->
  result (generate_response E question g) = Ok NOT_READY /\
  final (generate_response E question g) = g /\
  events (generate_response E question g) = [].
Proof.
  intros H. now rewrite (generate_response_not_ready E question g H).
Qed.

(** The state left by an initialisation that fetched the preferred tokenizer
    and nothing else: the tokenizer is set, the model is not. *)
Lemma generate_response_unset_witness :
  let g := final (initialize_model Mock.tokenizer_only initial_globals) in
  (tokenizer g <> None /\ model g = None) /\
  result (generate_response Mock.healthy (lit "When is the office open?") g) = Ok NOT_READY /\
  final (generate_response Mock.healthy (lit "When is the office open?") g) = g /\
  events (generate_response Mock.healthy (lit "When is the office open?") g) = [].
Proof.
  split; [split; [discriminate|reflexivity]|].
  apply generate_response_unset. right. reflexivity.
Defined.

(** C7. With a tokenizer and a model loaded and every call returning, let [r]
    be the decoded text.  If [r] contains the marker "Answer:", the marker
    has a last occurrence and the returned string is the text after that
    occurrence with the white space at both ends removed (that position and
    that trimmed text are unique); if [r] does not contain the marker, [r]
    itself is returned. *)
Theorem generate_response_answer_extraction (E : env) (question : str) (g : globals)
    (t : loaded Tokenizer) (m : loaded Model) (r : str) :
  tokenizer g = Some t -> model g = Some m ->
  decoded_text E (obj t) (obj m) (device g) question = Ok r ->
  (substring ANSWER r ->
     exists p answer,
       last_occurrence ANSWER r p /\
       trimmed (skipn (p + List.length ANSWER) r) answer /\
       result (generate_response E question g) = Ok answer /\
       (forall p' answer',
           last_occurrence ANSWER r p' ->
           trimmed (skipn (p' + List.length ANSWER) r) answer' ->
           answer' = answer)) /\
  (~ substring ANSWER r -> result (generate_response E question g) = Ok r).
Proof.
  intros Ht Hm Hd.
  rewrite (generate_response_loaded E question g t m Ht Hm).
  rewrite generate_steps_result, Hd. split.
  - intros Hsub. apply contains_substring in Hsub.
    destruct (last_occurrence_exists ANSWER r ANSWER_nonempty Hsub) as [p Hp].
    exists p, (strip (skipn (p + List.length ANSWER) r)).
    split; [exact Hp|]. split; [apply strip_trimmed|].
    split; [now rewrite (extract_answer_marker r g p Hp)|].
    intros p' answer' Hp' Htrim.
    rewrite (last_occurrence_unique ANSWER r p p' Hp Hp').
    now apply trimmed_strip.
  - intros Hsub.
    assert (Hc : contains ANSWER r = false).
    { destruct (contains ANSWER r) eqn:Hc; [|reflexivity].
      now apply contains_substring in Hc. }
    now rewrite (extract_answer_no_marker r g Hc).
Qed.

Lemma generate_response_answer_extraction_witness :
  let q := lit "When is the office open?" in
  let r := Mock.sample_output in
  decoded_text Mock.healthy Mock.granite_tokenizer Mock.granite_model (Some Cpu) q = Ok r /\
  (substring ANSWER r ->
     exists p answer,
       last_occurrence ANSWER r p /\
       trimmed (skipn (p + List.length ANSWER) r) answer /\
       result (generate_response Mock.healthy q Mock.granite_loaded) = Ok answer /\
       (forall p' answer',
           last_occurrence ANSWER r p' ->
           trimmed (skipn (p' + List.length ANSWER) r) answer' ->
           answer' = answer)) /\
  (~ substring ANSWER r ->
     result (generate_response Mock.healthy q Mock.granite_loaded) = Ok r).
Proof.
  split; [reflexivity|].
  apply (generate_response_answer_extraction Mock.healthy
           (lit "When is the office open?") Mock.granite_loaded
           {| origin := primary_model_path; obj := Mock.granite_tokenizer |}
           {| origin := primary_model_path; obj := Mock.granite_model |}
           Mock.sample_output); reflexivity.
Defined.

(** On the sample output the answer is what follows the second marker. *)
Example generate_response_sample :
  result (generate_response Mock.healthy (lit "When is the office open?")
            Mock.granite_loaded) = Ok (lit "From 9 to 5.").
Proof. vm_compute. reflexivity. Qed.

(** ** [initialize_model] *)

Ltac finish_run :=
  repeat match goal with
         | |- _ /\ _ => split
         | |- _ -> _ => intro
         | H : False |- _ => destruct H
         | H : ~ True |- _ => destruct (H I)
         | |- exists _, Ok ?b = Ok _ => exists b; reflexivity
         end;
  try reflexivity; try discriminate;
  try (vm_compute; first [reflexivity | lia]).

(** Once the device is known, initialisation returns a boolean. *)
Lemma initialize_model_total (E : env) (g : globals) (available : bool) :
  cuda_is_available E = Ok available ->
  exists b, result (initialize_model E g) = Ok b.
Proof.
  intros Hc. unfold_run. rewrite Hc. reduce_run.
  destruct available; reduce_run; repeat case_outcome; eauto.
Qed.

(** When initialisation returns true, tokenizer and model are both set and
    come from one model path, the preferred or the fallback one. *)
Lemma initialize_model_true (E : env) (g : globals) :
  result (initialize_model E g) = Ok true ->
  exists path t m,
    (path = primary_model_path \/ path = fallback_model_path) /\
    tokenizer (final (initialize_model E g)) = Some {| origin := path; obj := t |} /\
    model (final (initialize_model E g)) = Some {| origin := path; obj := m |}.
Proof.
  unfold_run. reduce_run. destruct (cuda_is_available E) as [[|]|e]; reduce_run;
    repeat case_outcome; intros H; try discriminate H;
    try (eexists _, _, _; split; [left; reflexivity|split; reflexivity]);
    try (eexists _, _, _; split; [right; reflexivity|split; reflexivity]).
Qed.

(** Three runs from the initial state: the preferred pair is loaded; the
    fallback pair is loaded; nothing is loaded. *)
Example initialize_model_healthy :
  let run := initialize_model Mock.healthy initial_globals in
  result run = Ok true /\ final run = Mock.granite_loaded.
Proof. split; reflexivity. Qed.

Example initialize_model_granite_missing :
  let run := initialize_model Mock.granite_missing initial_globals in
  result run = Ok true /\
  final run =
    {| tokenizer := Some {| origin := fallback_model_path; obj := Mock.dialogpt_tokenizer |};
       model := Some {| origin := fallback_model_path; obj := Mock.dialogpt_model |};
       device := Some Cpu |}.
Proof. split; reflexivity. Qed.

Example initialize_model_offline :
  let run := initialize_model Mock.offline initial_globals in
  result run = Ok false /\ absent (final run) /\
  In (EvPrint MsgDummyOnly) (events run).
Proof.
  cbv zeta. split; [reflexivity|]. split; [split; reflexivity|].
  vm_compute. tauto.
Qed.

(** C2. When the device query returns and some step of the preferred
    acquisition raises, [initialize_model] does not raise, starts the
    acquisition of the fallback model exactly once (one fetch of the fallback
    tokenizer, at most one fetch of the fallback weights), and returns false
    when a step of the fallback acquisition raises as well (true otherwise). *)
Theorem initialize_model_falls_back_once (E : env) (g : globals) (available : bool) :
  cuda_is_available E = Ok available ->
  primary_fails E (device_of available) ->
  (exists b, result (initialize_model E g) = Ok b) /\
  count_events (is_tokenizer_load fallback_model_path)
    (events (initialize_model E g)) = 1 /\
  count_events (is_model_load fallback_model_path)
    (events (initialize_model E g)) <= 1 /\
  (fallback_fails E (device_of available) ->
     result (initialize_model E g) = Ok false) /\
  (~ fallback_fails E (device_of available) ->
     result (initialize_model E g) = Ok true).
Proof.
  intros Hc. unfold primary_fails, fallback_fails. unfold_run. rewrite Hc.
  destruct available; reduce_run; repeat case_outcome; intros Hp;
    try (destruct Hp; fail); finish_run.
Qed.

Lemma initialize_model_falls_back_once_witness :
  let run := initialize_model Mock.granite_missing initial_globals in
  (exists b, result run = Ok b) /\
  count_events (is_tokenizer_load fallback_model_path) (events run) = 1 /\
  count_events (is_model_load fallback_model_path) (events run) <= 1 /\
  (fallback_fails Mock.granite_missing Cpu -> result run = Ok false) /\
  (~ fallback_fails Mock.granite_missing Cpu -> result run = Ok true).
Proof.
  apply (initialize_model_falls_back_once Mock.granite_missing initial_globals false).
  - reflexivity.
  - vm_compute. exact I.
Defined.

(** C3, at the failing input.  An accelerator is present, the preferred
    acquisition raises, the fallback pair is fetched but moving the model to
    the device raises: [initialize_model] returns false and announces dummy
    responses only, yet tokenizer and model are both set, so the state is not
    Absent and [generate_response] goes on to use the pair. *)
Theorem initialize_model_false_with_pair_set :
  let run := initialize_model Mock.fallback_move_fails initial_globals in
  result run = Ok false /\
  In (EvPrint MsgDummyOnly) (events run) /\
  tokenizer (final run) =
    Some {| origin := fallback_model_path; obj := Mock.dialogpt_tokenizer |} /\
  model (final run) =
    Some {| origin := fallback_model_path; obj := Mock.dialogpt_model |} /\
  both_set (final run) /\ ~ absent (final run) /\
  result (generate_response Mock.fallback_move_fails
            (lit "When is the office open?") (final run)) <> Ok NOT_READY.
Proof.
  cbv zeta. repeat split; try reflexivity; try discriminate.
  - vm_compute. tauto.
  - intros [H _]. discriminate H.
Qed.

(** C4, at the failing input.  Without accelerator, the preferred tokenizer
    and weights are fetched and assigned, placing the model raises, then the
    fallback tokenizer is fetched and assigned and the fallback weights are
    not: the globals end with the fallback tokenizer next to the preferred
    model. *)
Theorem initialize_model_leaves_mixed_pair :
  let run := initialize_model Mock.mixed_pair initial_globals in
  result run = Ok false /\
  tokenizer (final run) =
    Some {| origin := fallback_model_path; obj := Mock.dialogpt_tokenizer |} /\
  model (final run) =
    Some {| origin := primary_model_path; obj := Mock.granite_model |} /\
  both_set (final run) /\ ~ same_origin (final run).
Proof.
  cbv zeta. repeat split; try reflexivity; try discriminate.
  intros H.
  specialize (H {| origin := fallback_model_path; obj := Mock.dialogpt_tokenizer |}
                {| origin := primary_model_path; obj := Mock.granite_model |}
                eq_refl eq_refl).
  vm_compute in H. discriminate H.
Qed.

(** C8 as stated fails: with an availability query that raises,
    [initialize_model] raises too and no device is selected. *)
Lemma probe_failure_propagates : ~ probe_failure_degrades.
Proof.
  intros H.
  destruct (H Mock.probe_error initial_globals
              (Exception "CUDA driver initialization failed") eq_refl)
    as [b [Hb _]].
  vm_compute in Hb. discriminate Hb.
Qed.

(** C8, amended.  When the availability query raises, [initialize_model]
    does not catch it: the exception leaves [initialize_model] right after
    the query, with the globals as they were (no device selected) and no
    acquisition started.  The start-up block catches it, prints its two
    lines and goes on to start the web server, so the process continues;
    when nothing was loaded before, [generate_response] then answers with the
    not-ready message. *)
Theorem probe_failure_caught_at_startup (E : env) (g : globals) (e : exn) :
  cuda_is_available E = Raise e ->
  initialize_model E g = (Raise e, g, [EvPrint MsgInitializing; EvCudaIsAvailable]) /\
  startup E g =
    (Ok tt, g,
     [EvPrint MsgStarting; EvPrint MsgInitializing; EvCudaIsAvailable;
      EvPrint (MsgErrorDuringInit e); EvPrint MsgContinuingDummy;
      EvPrint MsgFlaskStarting]) /\
  (absent g ->
   forall question,
     result (generate_response E question (final (startup E g))) = Ok NOT_READY).
Proof.
  intros Hc.
  assert (Hi : initialize_model E g =
               (Raise e, g, [EvPrint MsgInitializing; EvCudaIsAvailable])).
  { unfold_run. rewrite Hc. reflexivity. }
  assert (Hs : startup E g =
    (Ok tt, g,
     [EvPrint MsgStarting; EvPrint MsgInitializing; EvCudaIsAvailable;
      EvPrint (MsgErrorDuringInit e); EvPrint MsgContinuingDummy;
      EvPrint MsgFlaskStarting])).
  { unfold startup, bind at 1 2, try_except, print at 1.
    unfold bind at 1. rewrite Hi. reflexivity. }
  split; [exact Hi|]. split; [exact Hs|].
  intros Ha question. rewrite Hs. unfold final; cbn [fst snd].
  now rewrite (generate_response_absent E question g Ha).
Qed.

Lemma probe_failure_caught_at_startup_witness :
  let e := Exception "CUDA driver initialization failed" in
  initialize_model Mock.probe_error initial_globals =
    (Raise e, initial_globals, [EvPrint MsgInitializing; EvCudaIsAvailable]) /\
  startup Mock.probe_error initial_globals =
    (Ok tt, initial_globals,
     [EvPrint MsgStarting; EvPrint MsgInitializing; EvCudaIsAvailable;
      EvPrint (MsgErrorDuringInit e); EvPrint MsgContinuingDummy;
      EvPrint MsgFlaskStarting]) /\
  (absent initial_globals ->
   forall question,
     result (generate_response Mock.probe_error question
               (final (startup Mock.probe_error initial_globals))) = Ok NOT_READY).
Proof.
  apply (probe_failure_caught_at_startup Mock.probe_error initial_globals
           (Exception "CUDA driver initialization failed")).
  reflexivity.
Defined.

End AppFacts.

(* ================================================================== *)
(** * Facts about the sentiment scoring *)
(* ================================================================== *)

Module SentimentFacts.
Import PyStr Py App Spec PyStrFacts.

Lemma fold_left_add_ones {A : Type} (l : list A) (a : nat) :
  fold_left Nat.add (map (fun _ => 1) l) a = a + List.length l.
Proof.
  revert a. induction l as [|x l IH]; intros a; simpl; [lia|].
  rewrite IH. lia.
Qed.

Lemma score_filter (words : list str) (s : str) :
  score words s = List.length (filter (fun word => contains word s) words).
Proof. unfold score, sum. now rewrite fold_left_add_ones. Qed.

Lemma score_cons (w : str) (ws : list str) (s : str) :
  score (w :: ws) s = (if contains w s then 1 else 0) + score ws s.
Proof. rewrite !score_filter. simpl. now destruct (contains w s). Qed.

Lemma score_le_length (words : list str) (s : str) :
  score words s <= List.length words.
Proof. rewrite score_filter. apply filter_length_le. Qed.

(** [in] is true exactly when there is at least one occurrence. *)
Lemma contains_occurrences (w s : str) :
  (if contains w s then 1 else 0) = Nat.min 1 (occurrences w s).
Proof.
  induction s as [|c s IH]; simpl.
  - now destruct (startswith w []).
  - destruct (startswith w (c :: s)); simpl; [reflexivity|].
    rewrite IH. now destruct (occurrences w s).
Qed.

Lemma score_occurrences (words : list str) (s : str) :
  score words s = list_sum (map (fun w => Nat.min 1 (occurrences w s)) words).
Proof.
  induction words as [|w ws IH]; [reflexivity|].
  rewrite score_cons, IH, contains_occurrences. reflexivity.
Qed.

(** The score is the number of listed words that are substrings. *)
Lemma keyword_count_score (words : list str) (s : str) :
  keyword_count s words (score words s).
Proof.
  induction words as [|w ws IH]; [constructor|].
  rewrite score_cons. destruct (contains w s) eqn:Hc; simpl.
  - apply kc_hit; [now apply contains_substring|exact IH].
  - apply kc_miss; [|exact IH].
    intros H. apply contains_substring in H. congruence.
Qed.

Lemma keyword_count_functional (words : list str) (s : str) (n n' : nat) :
  keyword_count s words n -> keyword_count s words n' -> n = n'.
Proof.
  intros H. revert n'. induction H as [|w ws n Hs _ IH|w ws n Hs _ IH];
    intros n' H'; inversion H'; subst; try contradiction; auto.
Qed.

(** The score depends only on which listed words occur. *)
Lemma score_ext (words : list str) (s1 s2 : str) :
  (forall w, In w words -> (substring w s1 <-> substring w s2)) ->
  score words s1 = score words s2.
Proof.
  intros H. rewrite !score_filter. f_equal. apply filter_ext_in.
  intros w Hw. specialize (H w Hw). rewrite <- !contains_substring in H.
  destruct (contains w s1), (contains w s2); try reflexivity.
  - symmetry. now apply (proj1 H).
  - now apply (proj2 H).
Qed.

Lemma keyword_not_substring_of_empty (w : str) : w <> [] -> ~ substring w [].
Proof.
  intros Hne (pre & post & E). symmetry in E.
  apply app_eq_nil in E as [_ E]. apply app_eq_nil in E as [E _]. contradiction.
Qed.

Lemma score_empty (words : list str) :
  forallb (fun w => negb (eqb w [])) words = true -> score words [] = 0.
Proof.
  induction words as [|w ws IH]; [reflexivity|]. simpl.
  intros H. apply andb_true_iff in H as [Hw Hws].
  rewrite score_cons, (IH Hws). destruct w; [discriminate|reflexivity].
Qed.

(** A word without the character [c] that occurs in [a ++ c :: b] occurs in
    [a] or in [b]. *)
Lemma substring_app_sep (k a b : str) (c : char) :
  ~ In c k -> substring k (a ++ c :: b) -> substring k a \/ substring k b.
Proof.
  intros Hc (pre & post & E).
  apply app_eq_app in E as [l [[-> E]|[-> E]]].
  - (* the occurrence starts inside [a] *)
    apply app_eq_app in E as [m [[-> E]|[-> E]]].
    + destruct m as [|x m].
      * left. exists pre, []. now rewrite !app_nil_r.
      * simpl in E. injection E as <- _.
        destruct Hc. apply in_or_app. right. now left.
    + left. now exists pre, m.
  - (* the occurrence starts after [a] *)
    destruct l as [|x l]; simpl in E.
    + destruct k as [|y k].
      * right. exists [], b. reflexivity.
      * simpl in E. injection E as <- _. destruct Hc. now left.
    + injection E as _ ->. right. now exists l, post.
Qed.

Lemma eqb_eq (a b : str) : eqb a b = true -> a = b.
Proof.
  revert b. induction a as [|x a IH]; intros [|y b]; simpl; try discriminate; auto.
  intros H. apply andb_true_iff in H as [Hxy Hab].
  apply N.eqb_eq in Hxy. now rewrite Hxy, (IH b Hab).
Qed.

Lemma keywords_without_space (k : str) :
  In k all_keywords -> ~ In 32%N k.
Proof.
  assert (H : forallb (fun k => negb (existsb (N.eqb 32) k)) all_keywords = true)
    by (vm_compute; reflexivity).
  intros Hk Hin. rewrite forallb_forall in H. specialize (H k Hk).
  apply negb_true_iff in H.
  assert (existsb (N.eqb 32) k = true).
  { apply existsb_exists. exists 32%N. split; [exact Hin|reflexivity]. }
  congruence.
Qed.

Lemma keywords_not_nested (k w : str) :
  In k all_keywords -> In w all_keywords -> substring k w -> k = w.
Proof.
  assert (H : forallb (fun k => forallb (fun w => implb (contains k w) (eqb k w))
                                    all_keywords) all_keywords = true)
    by (vm_compute; reflexivity).
  intros Hk Hw Hsub. rewrite forallb_forall in H. specialize (H k Hk).
  rewrite forallb_forall in H. specialize (H w Hw).
  apply contains_substring in Hsub. rewrite Hsub in H. simpl in H.
  now apply eqb_eq.
Qed.

(** Writing a keyword that already occurs once more at the end of the text,
    after a blank, changes no score. *)
Lemma score_repeat (words : list str) (s w : str) :
  incl words all_keywords -> In w all_keywords -> substring w s ->
  score words (s ++ lit " " ++ w) = score words s.
Proof.
  intros Hincl Hw Hsub. apply score_ext. intros k Hk.
  change (s ++ lit " " ++ w) with (s ++ 32%N :: w). split.
  - intros H. apply substring_app_sep in H.
    + destruct H as [H|H]; [exact H|].
      now rewrite (keywords_not_nested k w (Hincl k Hk) Hw H).
    + apply keywords_without_space, Hincl, Hk.
  - intros (pre & post & ->). exists pre, (post ++ 32%N :: w).
    now rewrite <- !app_assoc.
Qed.

Lemma eqb_refl (a : str) : eqb a a = true.
Proof. induction a as [|x a IH]; simpl; [reflexivity|]. now rewrite N.eqb_refl. Qed.

Lemma distinct_NoDup (l : list str) : distinct l = true -> NoDup l.
Proof.
  induction l as [|x l IH]; simpl; intros H; constructor.
  - apply andb_true_iff in H as [H _]. apply negb_true_iff in H.
    intros Hin.
    assert (existsb (eqb x) l = true).
    { apply existsb_exists. exists x. split; [exact Hin|apply eqb_refl]. }
    congruence.
  - apply andb_true_iff in H as [_ H]. now apply IH.
Qed.

Lemma words_nonempty :
  forallb (fun w => negb (eqb w [])) positive_words = true /\
  forallb (fun w => negb (eqb w [])) negative_words = true.
Proof. split; vm_compute; reflexivity. Qed.

Lemma analyze_sentiment_unfold (lower : str -> str) (text : str) :
  analyze_sentiment lower text =
  if score negative_words (lower text) <? score positive_words (lower text)
  then lit "Positive"
  else if score positive_words (lower text) <? score negative_words (lower text)
       then lit "Negative"
       else lit "Neutral".
Proof. reflexivity. Qed.

(** C5. [analyze_sentiment] is total, scores the lower-cased text, and its
    verdict compares two counts: with [p] the number of positive words and
    [n] the number of negative words that are substrings of the lower-cased
    text (substring containment, not whole words), it returns 'Positive'
    when [p > n], 'Negative' when [n > p] and 'Neutral' when [p = n]; such
    counts exist for every text, and a text whose lower-casing is empty, as
    the empty string, is 'Neutral'. *)
Theorem analyze_sentiment_compares_counts (lower : str -> str) (text : str) :
  (exists p n,
      keyword_count (lower text) positive_words p /\
      keyword_count (lower text) negative_words n) /\
  (forall p n,
      keyword_count (lower text) positive_words p ->
      keyword_count (lower text) negative_words n ->
      (n < p -> analyze_sentiment lower text = lit "Positive") /\
      (p < n -> analyze_sentiment lower text = lit "Negative") /\
      (p = n -> analyze_sentiment lower text = lit "Neutral")) /\
  (lower text = [] -> analyze_sentiment lower text = lit "Neutral").
Proof.
  split; [|split].
  - exists (score positive_words (lower text)), (score negative_words (lower text)).
    split; apply keyword_count_score.
  - intros p n Hp Hn.
    rewrite (keyword_count_functional _ _ _ _ Hp (keyword_count_score _ _)).
    rewrite (keyword_count_functional _ _ _ _ Hn (keyword_count_score _ _)).
    rewrite analyze_sentiment_unfold.
    repeat split; intros H.
    + apply Nat.ltb_lt in H. now rewrite H.
    + assert (H' : (score negative_words (lower text)
                    <? score positive_words (lower text)) = false)
        by (apply Nat.ltb_ge; lia).
      apply Nat.ltb_lt in H. now rewrite H', H.
    + rewrite H, Nat.ltb_irrefl. reflexivity.
  - intros H. rewrite analyze_sentiment_unfold, H.
    rewrite (score_empty _ (proj1 words_nonempty)).
    rewrite (score_empty _ (proj2 words_nonempty)). reflexivity.
Qed.

Lemma analyze_sentiment_compares_counts_witness :
  let text := lit "This service was GREAT and unhelpful" in
  keyword_count (ascii_lower text) positive_words 2 /\
  keyword_count (ascii_lower text) negative_words 0 /\
  analyze_sentiment ascii_lower text = lit "Positive".
Proof.
  cbv zeta.
  set (text := lit "This service was GREAT and unhelpful").
  assert (Hp : keyword_count (ascii_lower text) positive_words 2)
    by exact (keyword_count_score positive_words (ascii_lower text)).
  assert (Hn : keyword_count (ascii_lower text) negative_words 0)
    by exact (keyword_count_score negative_words (ascii_lower text)).
  split; [exact Hp|]. split; [exact Hn|].
  apply (proj1 (proj1 (proj2 (analyze_sentiment_compares_counts ascii_lower text))
                  2 0 Hp Hn)).
  lia.
Defined.

(** The examples of the specification. *)
Example analyze_sentiment_positive :
  analyze_sentiment ascii_lower (lit "This service was great and helpful") = lit "Positive".
Proof. vm_compute. reflexivity. Qed.

Example analyze_sentiment_negative :
  analyze_sentiment ascii_lower (lit "This was a terrible, awful delay") = lit "Negative".
Proof. vm_compute. reflexivity. Qed.

Example analyze_sentiment_neutral :
  analyze_sentiment ascii_lower (lit "The office is open on weekdays") = lit "Neutral".
Proof. vm_compute. reflexivity. Qed.

Example analyze_sentiment_empty :
  analyze_sentiment ascii_lower [] = lit "Neutral".
Proof. vm_compute. reflexivity. Qed.

Example analyze_sentiment_case :
  analyze_sentiment ascii_lower (lit "GREAT SERVICE")
  = analyze_sentiment ascii_lower (lit "great service").
Proof. vm_compute. reflexivity. Qed.

(** C10 as stated fails: a repetition can create an occurrence of another
    listed word across the seam.  'delayed ba' has the negative score 1;
    with 'delayed' written once more at its end it reads 'delayed badelayed',
    which contains 'bad', and the negative score is 2. *)
Lemma repetition_changes_score : ~ repetition_keeps_scores.
Proof.
  intros H.
  destruct (H (lit "delayed ba") [] (lit "delayed")) as [_ Hneg].
  - vm_compute. tauto.
  - apply contains_substring. vm_compute. reflexivity.
  - vm_compute in Hneg. discriminate Hneg.
Qed.

(** The same repetition turns a 'Neutral' text into a 'Negative' one, and a
    repetition set between blanks can also lower a score, by breaking up
    another listed word. *)
Example repetition_changes_verdict :
  analyze_sentiment ascii_lower (lit "good, delayed ba") = lit "Neutral" /\
  analyze_sentiment ascii_lower (lit "good, delayed badelayed") = lit "Negative" /\
  score negative_words (lit "slow problem") = 2 /\
  score negative_words (lit "slow pro slow blem") = 1.
Proof. repeat split; vm_compute; reflexivity. Qed.

(** C10, amended. In [analyze_sentiment] the two scores are
    [score positive_words] and [score negative_words] of the lower-cased
    text; the listed words are pairwise distinct; each listed word adds
    [min 1 k] to its score, where [k] is the number of its occurrences, so
    never more than one point; the score is the number of listed words that
    occur as substrings; it depends only on which words occur; and writing a
    keyword that already occurs once more after a blank at the end of the
    text changes neither score. *)
Theorem score_counts_each_keyword_once (lower : str -> str) (text : str) :
  analyze_sentiment lower text =
    (if score negative_words (lower text) <? score positive_words (lower text)
     then lit "Positive"
     else if score positive_words (lower text) <? score negative_words (lower text)
          then lit "Negative"
          else lit "Neutral") /\
  NoDup positive_words /\ NoDup negative_words /\
  (forall words s,
      score words s = list_sum (map (fun w => Nat.min 1 (occurrences w s)) words) /\
      keyword_count s words (score words s) /\
      score words s <= List.length words) /\
  (forall words s s',
      (forall w, In w words -> (substring w s <-> substring w s')) ->
      score words s' = score words s) /\
  (forall s w,
      In w all_keywords -> substring w s ->
      score positive_words (s ++ lit " " ++ w) = score positive_words s /\
      score negative_words (s ++ lit " " ++ w) = score negative_words s).
Proof.
  split; [reflexivity|].
  split; [|split].
  - apply distinct_NoDup. vm_compute. reflexivity.
  - apply distinct_NoDup. vm_compute. reflexivity.
  - split; [|split].
    + intros words s. split; [apply score_occurrences|].
      split; [apply keyword_count_score|apply score_le_length].
    + intros words s s' H. symmetry. now apply score_ext.
    + intros s w Hw Hsub. split; apply score_repeat; try assumption;
        unfold all_keywords; [apply incl_appl|apply incl_appr]; apply incl_refl.
Qed.

Lemma score_counts_each_keyword_once_witness :
  let s := ascii_lower (lit "Good people, good service; no problem") in
  occurrences (lit "good") s = 2 /\
  score positive_words s = 1 /\
  score negative_words s = 1 /\
  score positive_words (s ++ lit " " ++ lit "good") = score positive_words s /\
  score negative_words (s ++ lit " " ++ lit "good") = score negative_words s.
Proof.
  cbv zeta.
  split; [vm_compute; reflexivity|].
  split; [vm_compute; reflexivity|].
  split; [vm_compute; reflexivity|].
  apply (proj2 (proj2 (proj2 (proj2 (proj2
           (score_counts_each_keyword_once ascii_lower [])))))
           (ascii_lower (lit "Good people, good service; no problem")) (lit "good")).
  - vm_compute. tauto.
  - apply contains_substring. vm_compute. reflexivity.
Defined.

End SentimentFacts.

(* ================================================================== *)
(** * Further facts about the model layer *)
(* ================================================================== *)

Module AppMore.
Import PyStr Py App Spec MoreSpec PyStrFacts AppFacts.

(** ** [generate_response] reads the globals and never writes them *)

Lemma generate_steps_final (E : env) (t : Tokenizer) (m : Model) (q : str) (g : globals) :
  final (generate_steps E t m q g) = g.
Proof.
  unfold_run. reduce_run.
  repeat (case_outcome; try reflexivity).
  match goal with |- context [extract_answer ?r g] =>
    destruct (extract_answer_run r g) as [s ->] end.
  reflexivity.
Qed.

Lemma generate_response_final (E : env) (question : str) (g : globals) :
  final (generate_response E question g) = g.
Proof.
  destruct (tokenizer g) as [t|] eqn:Ht; destruct (model g) as [m|] eqn:Hm;
    try (rewrite generate_response_not_ready; [reflexivity|solve [auto]]).
  unfold generate_response, bind at 1 2, get_model, get_tokenizer.
  cbn -[generate_steps TECHNICAL_DIFFICULTIES]. rewrite Ht, Hm.
  pose proof (generate_steps_final E (obj t) (obj m) question g) as Hf.
  unfold try_except, final in *.
  destruct (generate_steps E (obj t) (obj m) question g) as [[[s|e] g1] t1];
    cbn in *; now subst.
Qed.

(** Whatever the collaborators do, a call of [generate_response] leaves
    tokenizer, model and device as they were. *)
Theorem generate_response_keeps_globals (E : env) (question : str) (g : globals) :
  final (generate_response E question g) = g.
Proof. apply generate_response_final. Qed.

(** ** The echoed prompt is cut off *)

Lemma last_occurrence_app (sep pre post : str) :
  unbordered sep = true -> contains sep post = false ->
  last_occurrence sep (pre ++ sep ++ post) (List.length pre).
Proof.
  intros Hu Hpost.
  assert (Hskip : skipn (List.length pre) (pre ++ sep ++ post) = sep ++ post).
  { rewrite skipn_app, skipn_all, Nat.sub_diag. reflexivity. }
  split.
  - unfold occurs_at. rewrite Hskip. apply startswith_app.
  - intros q Hq Hocc.
    replace q with (List.length pre + (q - List.length pre)) in Hocc by lia.
    apply occurs_at_skipn in Hocc. rewrite Hskip in Hocc. unfold occurs_at in Hocc.
    destruct (Nat.lt_ge_cases (q - List.length pre) (List.length sep)) as [Hk|Hk].
    + rewrite (unbordered_no_overlap sep (sep ++ post) (q - List.length pre) Hu) in Hocc.
      * discriminate.
      * apply startswith_app.
      * lia.
    + rewrite skipn_app, skipn_all2 in Hocc by exact Hk. simpl in Hocc.
      assert (contains sep post = true).
      { apply contains_occurs. exists (q - List.length pre - List.length sep). exact Hocc. }
      congruence.
Qed.

Lemma prompt_ends_with_marker (question : str) :
  exists pre, prompt_of question = pre ++ ANSWER.
Proof.
  unfold prompt_of.
  change (lit "        Answer:") with (lit "        " ++ ANSWER).
  rewrite !app_assoc. eexists. reflexivity.
Qed.

(** When the decoded text is the prompt followed by a completion that does
    not contain the marker, the answer is the completion without the white
    space around it: everything up to the end of the prompt is dropped, also
    when the question itself contains "Answer:". *)
Theorem generate_response_drops_prompt (E : env) (question : str) (g : globals)
    (t : loaded Tokenizer) (m : loaded Model) (completion : str) :
  tokenizer g = Some t -> model g = Some m ->
  decoded_text E (obj t) (obj m) (device g) question
    = Ok (prompt_of question ++ completion) ->
  ~ substring ANSWER completion ->
  result (generate_response E question g) = Ok (strip completion).
Proof.
  intros Ht Hm Hd Hno.
  rewrite (generate_response_loaded E question g t m Ht Hm).
  rewrite generate_steps_result, Hd.
  destruct (prompt_ends_with_marker question) as [pre ->].
  assert (Hc : contains ANSWER completion = false).
  { destruct (contains ANSWER completion) eqn:Hc; [|reflexivity].
    now apply contains_substring in Hc. }
  rewrite <- app_assoc.
  rewrite (extract_answer_marker _ g (List.length pre)
             (last_occurrence_app ANSWER pre completion ANSWER_unbordered Hc)).
  rewrite skipn_app, skipn_all2 by lia.
  replace (List.length pre + List.length ANSWER - List.length pre)
    with (List.length ANSWER) by lia.
  rewrite skipn_app, skipn_all, Nat.sub_diag. reflexivity.
Qed.

Lemma generate_response_drops_prompt_witness :
  result (generate_response MoreMock.echoing MoreMock.tricky_question
            Mock.granite_loaded) = Ok (lit "It marks the reply.").
Proof.
  apply (generate_response_drops_prompt MoreMock.echoing MoreMock.tricky_question
           Mock.granite_loaded
           {| origin := primary_model_path; obj := Mock.granite_tokenizer |}
           {| origin := primary_model_path; obj := Mock.granite_model |}
           (lit "  It marks the reply. " ++ newline)).
  - reflexivity.
  - reflexivity.
  - reflexivity.
  - intros H. apply contains_substring in H. vm_compute in H. discriminate H.
Defined.

(** ** [initialize_model] *)

Ltac settle :=
  repeat match goal with
         | |- _ /\ _ => split
         | |- _ <-> _ => split
         | |- _ -> _ => intro
         | H : False |- _ => destruct H
         | H : _ /\ _ |- _ => destruct H
         | H : ~ True |- _ => destruct (H I)
         | H : ~ (True /\ True) |- _ => destruct (H (conj I I))
         | H : Ok _ = Ok _ |- _ => discriminate H
         | H : @eq (res _) _ _ |- _ => discriminate H
         | |- ~ _ => intro
         | |- True => exact I
         end;
  try reflexivity; try discriminate; try tauto;
  try (vm_compute; first [reflexivity | lia]).

(** Once the device query has returned, [initialize_model] returns false
    exactly when a step of the preferred acquisition and a step of the
    fallback acquisition raise, and true in every other case. *)
Theorem initialize_model_false_iff (E : env) (g : globals) (available : bool) :
  cuda_is_available E = Ok available ->
  (result (initialize_model E g) = Ok false <->
     primary_fails E (device_of available) /\ fallback_fails E (device_of available)) /\
  (result (initialize_model E g) = Ok true <->
     ~ (primary_fails E (device_of available) /\ fallback_fails E (device_of available))).
Proof.
  intros Hc. unfold primary_fails, fallback_fails. unfold_run. rewrite Hc.
  destruct available; reduce_run; repeat case_outcome; settle.
Qed.

Lemma initialize_model_false_iff_witness :
  (result (initialize_model Mock.offline initial_globals) = Ok false <->
     primary_fails Mock.offline Cpu /\ fallback_fails Mock.offline Cpu) /\
  (result (initialize_model Mock.offline initial_globals) = Ok true <->
     ~ (primary_fails Mock.offline Cpu /\ fallback_fails Mock.offline Cpu)).
Proof.
  apply (initialize_model_false_iff Mock.offline initial_globals false). reflexivity.
Defined.

(** When the device query returns and no step of the preferred acquisition
    raises, [initialize_model] returns true, selects the device the query
    indicates, stores the tokenizer and the model the loaders returned for the
    preferred path, whatever the globals held before, and never asks for the
    fallback model. *)
Theorem initialize_model_prefers_primary (E : env) (g : globals) (available : bool) :
  cuda_is_available E = Ok available ->
  ~ primary_fails E (device_of available) ->
  exists t m kw,
    AutoTokenizer_from_pretrained E primary_model_path = Ok t /\
    AutoModelForCausalLM_from_pretrained E primary_model_path kw = Ok m /\
    result (initialize_model E g) = Ok true /\
    final (initialize_model E g) =
      {| tokenizer := Some {| origin := primary_model_path; obj := t |};
         model := Some {| origin := primary_model_path; obj := m |};
         device := Some (device_of available) |} /\
    count_events (is_tokenizer_load fallback_model_path)
      (events (initialize_model E g)) = 0 /\
    count_events (is_model_load fallback_model_path)
      (events (initialize_model E g)) = 0.
Proof.
  intros Hc. unfold primary_fails. unfold_run. rewrite Hc.
  destruct available; reduce_run; repeat case_outcome; intros Hp;
    try (destruct (Hp I); fail);
    (eexists _, _, _; split; [reflexivity|]; split; [eassumption|]; settle).
Qed.

Lemma initialize_model_prefers_primary_witness :
  exists t m kw,
    AutoTokenizer_from_pretrained MoreMock.accelerated primary_model_path = Ok t /\
    AutoModelForCausalLM_from_pretrained MoreMock.accelerated primary_model_path kw = Ok m /\
    result (initialize_model MoreMock.accelerated Mock.granite_loaded) = Ok true /\
    final (initialize_model MoreMock.accelerated Mock.granite_loaded) =
      {| tokenizer := Some {| origin := primary_model_path; obj := t |};
         model := Some {| origin := primary_model_path; obj := m |};
         device := Some Cuda |} /\
    count_events (is_tokenizer_load fallback_model_path)
      (events (initialize_model MoreMock.accelerated Mock.granite_loaded)) = 0 /\
    count_events (is_model_load fallback_model_path)
      (events (initialize_model MoreMock.accelerated Mock.granite_loaded)) = 0.
Proof.
  apply (initialize_model_prefers_primary MoreMock.accelerated Mock.granite_loaded true).
  - reflexivity.
  - vm_compute. tauto.
Defined.

(** When the device query returns, a step of the preferred acquisition raises
    and no step of the fallback acquisition does, [initialize_model] returns
    true with the tokenizer and the model the loaders returned for the
    fallback path, whatever the preferred acquisition had assigned before it
    raised. *)
Theorem initialize_model_fallback_pair (E : env) (g : globals) (available : bool) :
  cuda_is_available E = Ok available ->
  primary_fails E (device_of available) ->
  ~ fallback_fails E (device_of available) ->
  exists t m,
    AutoTokenizer_from_pretrained E fallback_model_path = Ok t /\
    AutoModelForCausalLM_from_pretrained E fallback_model_path NoKwargs = Ok m /\
    result (initialize_model E g) = Ok true /\
    final (initialize_model E g) =
      {| tokenizer := Some {| origin := fallback_model_path; obj := t |};
         model := Some {| origin := fallback_model_path; obj := m |};
         device := Some (device_of available) |}.
Proof.
  intros Hc. unfold primary_fails, fallback_fails. unfold_run. rewrite Hc.
  destruct available; reduce_run; repeat case_outcome; intros Hp Hf;
    try (destruct Hp; fail); try (destruct (Hf I); fail);
    (eexists _, _; split; [reflexivity|]; split; [reflexivity|]; split; reflexivity).
Qed.

Lemma initialize_model_fallback_pair_witness :
  exists t m,
    AutoTokenizer_from_pretrained Mock.granite_missing fallback_model_path = Ok t /\
    AutoModelForCausalLM_from_pretrained Mock.granite_missing fallback_model_path NoKwargs
      = Ok m /\
    result (initialize_model Mock.granite_missing initial_globals) = Ok true /\
    final (initialize_model Mock.granite_missing initial_globals) =
      {| tokenizer := Some {| origin := fallback_model_path; obj := t |};
         model := Some {| origin := fallback_model_path; obj := m |};
         device := Some Cpu |}.
Proof.
  apply (initialize_model_fallback_pair Mock.granite_missing initial_globals false).
  - reflexivity.
  - vm_compute. exact I.
  - vm_compute. tauto.
Defined.

Lemma initialize_model_true_witness :
  exists path t m,
    (path = primary_model_path \/ path = fallback_model_path) /\
    tokenizer (final (initialize_model Mock.granite_missing initial_globals))
      = Some {| origin := path; obj := t |} /\
    model (final (initialize_model Mock.granite_missing initial_globals))
      = Some {| origin := path; obj := m |}.
Proof.
  apply (initialize_model_true Mock.granite_missing initial_globals). reflexivity.
Defined.

(** Without an accelerator no quantisation configuration is built and no
    quantised weights are requested; with an accelerator no full-precision
    (float32) weights are requested. *)
Theorem initialize_model_precision (E : env) (g : globals) (available : bool) :
  cuda_is_available E = Ok available ->
  if available
  then count_events is_float32_load (events (initialize_model E g)) = 0
  else count_events is_quantized_load (events (initialize_model E g)) = 0.
Proof.
  intros Hc. unfold_run. rewrite Hc.
  destruct available; reduce_run; repeat case_outcome; reflexivity.
Qed.

Lemma initialize_model_precision_witness :
  count_events is_quantized_load (events (initialize_model Mock.healthy initial_globals)) = 0 /\
  count_events is_float32_load
    (events (initialize_model MoreMock.accelerated initial_globals)) = 0.
Proof.
  split.
  - apply (initialize_model_precision Mock.healthy initial_globals false). reflexivity.
  - apply (initialize_model_precision MoreMock.accelerated initial_globals true). reflexivity.
Defined.

(** ** [startup] *)

(** The start-up block never raises, whatever the collaborators do, the
    device query included, and always gets to the line that announces the
    web server. *)
Theorem startup_reaches_server (E : env) (g : globals) :
  result (startup E g) = Ok tt /\
  last (events (startup E g)) (EvPrint MsgStarting) = EvPrint MsgFlaskStarting.
Proof.
  unfold_run. reduce_run.
  destruct (cuda_is_available E) as [[|]|e]; reduce_run;
    repeat case_outcome; split; reflexivity.
Qed.

End AppMore.

(* ================================================================== *)
(** * Facts about the web layer *)
(* ================================================================== *)

Module WebFacts.
Import PyStr Py App Web Spec MoreSpec PyStrFacts AppFacts AppMore.

#[local] Arguments lit : simpl never.

Ltac unfold_web :=
  unfold outcome, after, trace, handle, index, about, services, chat, ask_question,
    submit_feedback, submit_concern, dashboard, login, logout,
    not_logged_in, session_set, flash, run_ai,
    get_session, get_chat_history, get_sentiment_data, get_concerns,
    put_session, put_chat_history, put_sentiment_data, put_concerns,
    wbind, wret, wraise.

(** ** White space *)

Lemma lstrip_blank (s : str) : forallb isspace s = true -> lstrip s = [].
Proof.
  induction s as [|c s IH]; simpl; [reflexivity|].
  intros H. apply andb_true_iff in H as [Hc Hs]. rewrite Hc. now apply IH.
Qed.

(** [strip] gives the empty string exactly on blank input. *)
Lemma strip_empty_iff (s : str) : strip s = [] <-> blank s.
Proof.
  unfold blank. split.
  - intros H. destruct (strip_trimmed s) as (l & r & E & Hl & Hr & _).
    rewrite H in E. rewrite E. simpl. rewrite forallb_app, Hl, Hr. reflexivity.
  - intros H. unfold strip. now rewrite (lstrip_blank s H).
Qed.

(** ** Dictionaries *)

Lemma dict_set_keys {V : Type} (d : dict V) (key : str) (v : V) :
  dict_in key d = true -> map fst (dict_set d key v) = map fst d.
Proof.
  unfold dict_in. induction d as [|[k v'] d IH]; simpl; [discriminate|].
  destruct (eqb k key); simpl; [reflexivity|].
  intros H. now rewrite IH.
Qed.

Lemma dict_get_set_same {V : Type} (d : dict V) (key : str) (v : V) :
  dict_get (dict_set d key v) key = Some v.
Proof.
  induction d as [|[k v'] d IH]; simpl.
  - now rewrite SentimentFacts.eqb_refl.
  - destruct (eqb k key) eqn:Hk; simpl; now rewrite Hk.
Qed.

Lemma eqb_neq (a b : str) : a <> b -> eqb a b = false.
Proof.
  intros H. destruct (eqb a b) eqn:E; [|reflexivity].
  now apply SentimentFacts.eqb_eq in E.
Qed.

Lemma dict_get_set_other {V : Type} (d : dict V) (key k : str) (v : V) :
  k <> key -> dict_get (dict_set d key v) k = dict_get d k.
Proof.
  intros Hne. induction d as [|[k0 v'] d IH]; simpl.
  - rewrite eqb_neq; [reflexivity|congruence].
  - destruct (eqb k0 key) eqn:Hk; simpl.
    + apply SentimentFacts.eqb_eq in Hk. subst k0.
      rewrite eqb_neq; [reflexivity|congruence].
    + now rewrite IH.
Qed.

Lemma dict_set_total (d : dict nat) (key : str) (n : nat) :
  dict_get d key = Some n ->
  total (dict_set d key (n + 1)) = total d + 1.
Proof.
  unfold total. induction d as [|[k v'] d IH]; simpl; [discriminate|].
  destruct (eqb k key); simpl.
  - intros [= ->]. lia.
  - intros H. rewrite (IH H). lia.
Qed.

(** ** The login gate *)

Lemma redirect_when_logged_out (E : env) (lower : str -> str) (h : hit) (w : world) :
  logged_out w ->
  In (target h) [Chat; Ask; Feedback; Concern; Dashboard] ->
  handle E lower h w = (Ok (Redirect (lit "login")), w, []).
Proof.
  unfold logged_out. intros Hout Hin.
  unfold_web. simpl in Hin.
  destruct Hin as [<-|[<-|[<-|[<-|[<-|[]]]]]]; cbn; rewrite Hout; reflexivity.
Qed.

(** Without ['logged_in'] in the session, the five protected views answer
    with a redirect to the login page, change neither the session nor a
    store nor the model globals, and call nothing: no answer is generated. *)
Theorem protected_views_redirect (E : env) (lower : str -> str) (h : hit) (w : world) :
  logged_out w ->
  In (target h) [Chat; Ask; Feedback; Concern; Dashboard] ->
  handle E lower h w = (Ok (Redirect (lit "login")), w, []).
Proof. apply redirect_when_logged_out. Qed.

Lemma protected_views_redirect_witness :
  handle Mock.healthy ascii_lower
    {| target := Ask;
       sent := MoreMock.post [(lit "question", lit "When is the office open?")];
       clock := MoreMock.noon |}
    initial_world
  = (Ok (Redirect (lit "login")), initial_world, []).
Proof.
  apply protected_views_redirect.
  - reflexivity.
  - simpl. tauto.
Defined.

(** ** Blank input *)

(** For a visitor who is logged in, a question, a feedback text or a concern
    that is missing, empty or made of white space only is answered with the
    chat page and an error message; nothing is stored, nothing is counted
    and the model is not called. *)
Theorem blank_input_rejected (E : env) (lower : str -> str) (req : request)
    (now : str) (w : world) :
  dict_in (lit "logged_in") (session w) = true ->
  (blank (dict_get_default (form req) (lit "question") []) ->
   ask_question E req now w =
     (Ok (Render (lit "chat.html")
            [(lit "error", TStr (lit "Please enter a question."))]), w, [])) /\
  (blank (dict_get_default (form req) (lit "feedback") []) ->
   submit_feedback lower req w =
     (Ok (Render (lit "chat.html")
            [(lit "error", TStr (lit "Please enter feedback text."))]), w, [])) /\
  (blank (dict_get_default (form req) (lit "concern") []) ->
   submit_concern req now w =
     (Ok (Render (lit "chat.html")
            [(lit "error", TStr (lit "Please enter your concern."))]), w, [])).
Proof.
  intros Hin. repeat split; intros Hb; apply strip_empty_iff in Hb;
    unfold_web; unfold form_field; cbn; rewrite Hin; cbn; rewrite Hb; reflexivity.
Qed.

Lemma blank_input_rejected_witness :
  let req := MoreMock.post [(lit "question", lit "   "); (lit "concern", [])] in
  ask_question Mock.healthy req MoreMock.noon MoreMock.member =
    (Ok (Render (lit "chat.html")
           [(lit "error", TStr (lit "Please enter a question."))]), MoreMock.member, []) /\
  submit_feedback ascii_lower req MoreMock.member =
    (Ok (Render (lit "chat.html")
           [(lit "error", TStr (lit "Please enter feedback text."))]), MoreMock.member, []) /\
  submit_concern req MoreMock.noon MoreMock.member =
    (Ok (Render (lit "chat.html")
           [(lit "error", TStr (lit "Please enter your concern."))]), MoreMock.member, []).
Proof.
  cbv zeta.
  pose proof (blank_input_rejected Mock.healthy ascii_lower
                (MoreMock.post [(lit "question", lit "   "); (lit "concern", [])])
                MoreMock.noon MoreMock.member eq_refl) as (Hq & Hf & Hc).
  split; [apply Hq; reflexivity|]. split; [apply Hf; reflexivity|].
  apply Hc; reflexivity.
Defined.

(** ** [ask_question] *)

(** For a visitor who is logged in and a question that is not blank,
    [ask_question] does not raise: it asks [generate_response] for an answer
    to the stripped question, appends one entry with the time, that question
    and that answer at the end of the chat history, shows the same answer,
    and leaves session, counters, concerns and model globals as they were. *)
Theorem ask_question_records (E : env) (req : request) (now : str) (w : world) :
  dict_in (lit "logged_in") (session w) = true ->
  ~ blank (dict_get_default (form req) (lit "question") []) ->
  let question := form_field req (lit "question") in
  exists response,
    result (generate_response E question (ai w)) = Ok response /\
    outcome (ask_question E req now w) =
      Ok (Render (lit "chat.html")
            [(lit "question_response", TStr response);
             (lit "user_question", TStr question)]) /\
    after (ask_question E req now w) =
      {| session := session w;
         chat_history := chat_history w ++
           [{| chat_timestamp := now; chat_question := question;
               chat_response := response |}];
         sentiment_data := sentiment_data w;
         concerns := concerns w;
         ai := ai w |}.
Proof.
  intros Hin Hnb question. subst question.
  assert (Hq : form_field req (lit "question") <> []).
  { intros H. apply Hnb. now apply strip_empty_iff. }
  destruct (generate_response_total E (form_field req (lit "question")) (ai w))
    as [response Hr].
  pose proof (generate_response_final E (form_field req (lit "question")) (ai w))
    as Hg.
  exists response. split; [exact Hr|].
  unfold_web. cbn -[generate_response]. rewrite Hin. cbn -[generate_response].
  destruct (form_field req (lit "question")) as [|c q]; [congruence|].
  unfold result, final in Hr, Hg.
  destruct (generate_response E (c :: q) (ai w)) as [[r g] t].
  cbn in Hr, Hg. subst r g. cbn. split; reflexivity.
Qed.

Lemma ask_question_records_witness :
  let req := MoreMock.post [(lit "question", lit "  When is the office open? ")] in
  let question := form_field req (lit "question") in
  exists response,
    result (generate_response Mock.healthy question (ai MoreMock.member)) = Ok response /\
    outcome (ask_question Mock.healthy req MoreMock.noon MoreMock.member) =
      Ok (Render (lit "chat.html")
            [(lit "question_response", TStr response);
             (lit "user_question", TStr question)]) /\
    after (ask_question Mock.healthy req MoreMock.noon MoreMock.member) =
      {| session := session MoreMock.member;
         chat_history := chat_history MoreMock.member ++
           [{| chat_timestamp := MoreMock.noon; chat_question := question;
               chat_response := response |}];
         sentiment_data := sentiment_data MoreMock.member;
         concerns := concerns MoreMock.member;
         ai := ai MoreMock.member |}.
Proof.
  apply (ask_question_records Mock.healthy
           (MoreMock.post [(lit "question", lit "  When is the office open? ")])
           MoreMock.noon MoreMock.member).
  - reflexivity.
  - intros H. unfold blank in H. vm_compute in H. discriminate H.
Defined.

(** ** [submit_feedback] *)

Lemma analyze_sentiment_verdicts (lower : str -> str) (text : str) :
  analyze_sentiment lower text = lit "Positive" \/
  analyze_sentiment lower text = lit "Negative" \/
  analyze_sentiment lower text = lit "Neutral".
Proof.
  rewrite SentimentFacts.analyze_sentiment_unfold.
  destruct (_ <? _); [auto|]. destruct (_ <? _); auto.
Qed.

Lemma three_counters_inv (d : dict nat) :
  three_counters d ->
  exists a b c, d = [(lit "positive", a); (lit "neutral", b); (lit "negative", c)].
Proof.
  unfold three_counters. intros H.
  destruct d as [|[k1 a] [|[k2 b] [|[k3 c] [|]]]]; try discriminate H.
  cbn [map fst] in H. injection H as -> -> ->. now exists a, b, c.
Qed.

(** For a visitor who is logged in, a feedback text that is not blank and
    counters as on line 19, [submit_feedback] shows the verdict of
    [analyze_sentiment] on the stripped text and adds one to exactly one
    counter, the one named by the lower-cased verdict: the other counters
    keep their values, the three keys stay, the sum of the counters grows by
    one, and session, chat history, concerns and model globals are
    unchanged.  ([lower] is assumed to act on ASCII text as Python's
    lower-casing does.) *)
Theorem submit_feedback_counts (lower : str -> str) (req : request) (w : world) :
  lower_on_ascii lower ->
  dict_in (lit "logged_in") (session w) = true ->
  three_counters (sentiment_data w) ->
  ~ blank (dict_get_default (form req) (lit "feedback") []) ->
  let text := form_field req (lit "feedback") in
  let verdict := analyze_sentiment lower text in
  let key := ascii_lower verdict in
  exists n,
    dict_get (sentiment_data w) key = Some n /\
    submit_feedback lower req w =
      (Ok (Render (lit "chat.html")
             [(lit "sentiment", TStr verdict); (lit "feedback_text", TStr text)]),
       {| session := session w;
          chat_history := chat_history w;
          sentiment_data := dict_set (sentiment_data w) key (n + 1);
          concerns := concerns w;
          ai := ai w |},
       []) /\
    three_counters (dict_set (sentiment_data w) key (n + 1)) /\
    total (dict_set (sentiment_data w) key (n + 1)) = total (sentiment_data w) + 1 /\
    dict_get (dict_set (sentiment_data w) key (n + 1)) key = Some (n + 1) /\
    (forall k, k <> key ->
       dict_get (dict_set (sentiment_data w) key (n + 1)) k
       = dict_get (sentiment_data w) k).
Proof.
  intros Hlow Hin Hthree Hnb text verdict key. subst key verdict text.
  assert (Hq : form_field req (lit "feedback") <> []).
  { intros H. apply Hnb. now apply strip_empty_iff. }
  assert (Hkey : lower (analyze_sentiment lower (form_field req (lit "feedback")))
                 = ascii_lower (analyze_sentiment lower (form_field req (lit "feedback")))).
  { apply Hlow.
    destruct (analyze_sentiment_verdicts lower (form_field req (lit "feedback")))
      as [-> | [-> | ->]]; reflexivity. }
  assert (Hget : exists n,
             dict_get (sentiment_data w)
               (ascii_lower (analyze_sentiment lower (form_field req (lit "feedback"))))
             = Some n).
  { destruct (three_counters_inv _ Hthree) as (a & b & c & ->).
    destruct (analyze_sentiment_verdicts lower (form_field req (lit "feedback")))
      as [-> | [-> | ->]]; eexists; reflexivity. }
  destruct Hget as [n Hn]. exists n. split; [exact Hn|].
  assert (Hmem : dict_in
            (ascii_lower (analyze_sentiment lower (form_field req (lit "feedback"))))
            (sentiment_data w) = true).
  { unfold dict_in. now rewrite Hn. }
  split.
  - unfold_web. cbn -[analyze_sentiment ascii_lower]. rewrite Hin.
    cbn -[analyze_sentiment ascii_lower].
    destruct (form_field req (lit "feedback")) as [|c q]; [congruence|].
    rewrite Hkey, Hmem, Hn. reflexivity.
  - split; [unfold three_counters; rewrite dict_set_keys by exact Hmem; exact Hthree|].
    split; [now apply dict_set_total|].
    split; [apply dict_get_set_same|].
    intros k Hk. now apply dict_get_set_other.
Qed.

Lemma ascii_lower_on_ascii : lower_on_ascii ascii_lower.
Proof. intros s _. reflexivity. Qed.

Lemma submit_feedback_counts_witness :
  let req := MoreMock.post [(lit "feedback", lit " Great service, very HELPFUL ")] in
  let text := form_field req (lit "feedback") in
  let verdict := analyze_sentiment ascii_lower text in
  let key := ascii_lower verdict in
  let w := MoreMock.member in
  exists n,
    dict_get (sentiment_data w) key = Some n /\
    submit_feedback ascii_lower req w =
      (Ok (Render (lit "chat.html")
             [(lit "sentiment", TStr verdict); (lit "feedback_text", TStr text)]),
       {| session := session w;
          chat_history := chat_history w;
          sentiment_data := dict_set (sentiment_data w) key (n + 1);
          concerns := concerns w;
          ai := ai w |},
       []) /\
    three_counters (dict_set (sentiment_data w) key (n + 1)) /\
    total (dict_set (sentiment_data w) key (n + 1)) = total (sentiment_data w) + 1 /\
    dict_get (dict_set (sentiment_data w) key (n + 1)) key = Some (n + 1) /\
    (forall k, k <> key ->
       dict_get (dict_set (sentiment_data w) key (n + 1)) k
       = dict_get (sentiment_data w) k).
Proof.
  apply (submit_feedback_counts ascii_lower
           (MoreMock.post [(lit "feedback", lit " Great service, very HELPFUL ")])
           MoreMock.member).
  - exact ascii_lower_on_ascii.
  - reflexivity.
  - reflexivity.
  - intros H. unfold blank in H. vm_compute in H. discriminate H.
Defined.

(** On the sample feedback the positive counter goes from 0 to 1. *)
Example submit_feedback_sample :
  sentiment_data
    (after (submit_feedback ascii_lower
              (MoreMock.post [(lit "feedback", lit " Great service, very HELPFUL ")])
              MoreMock.member))
  = [(lit "positive", 1); (lit "neutral", 0); (lit "negative", 0)].
Proof. vm_compute. reflexivity. Qed.

(** ** [submit_concern] *)

(** For a visitor who is logged in and a concern that is not blank,
    [submit_concern] appends one entry at the end of the concerns, with the
    time, the stripped text and the status 'Open', and changes nothing
    else. *)
Theorem submit_concern_records (req : request) (now : str) (w : world) :
  dict_in (lit "logged_in") (session w) = true ->
  ~ blank (dict_get_default (form req) (lit "concern") []) ->
  submit_concern req now w =
    (Ok (Render (lit "chat.html") [(lit "concern_submitted", TBool true)]),
     {| session := session w;
        chat_history := chat_history w;
        sentiment_data := sentiment_data w;
        concerns := concerns w ++
          [{| concern_timestamp := now;
              concern_text := form_field req (lit "concern");
              concern_status := lit "Open" |}];
        ai := ai w |},
     []).
Proof.
  intros Hin Hnb.
  assert (Hq : form_field req (lit "concern") <> []).
  { intros H. apply Hnb. now apply strip_empty_iff. }
  unfold_web. cbn. rewrite Hin. cbn.
  destruct (form_field req (lit "concern")) as [|c q]; [congruence|]. reflexivity.
Qed.

Lemma submit_concern_records_witness :
  let req := MoreMock.post [(lit "concern", lit "  Street light broken  ")] in
  submit_concern req MoreMock.noon MoreMock.member =
    (Ok (Render (lit "chat.html") [(lit "concern_submitted", TBool true)]),
     {| session := session MoreMock.member;
        chat_history := [];
        sentiment_data := sentiment_data MoreMock.member;
        concerns := [{| concern_timestamp := MoreMock.noon;
                        concern_text := lit "Street light broken";
                        concern_status := lit "Open" |}];
        ai := ai MoreMock.member |},
     []).
Proof.
  cbv zeta.
  apply (submit_concern_records
           (MoreMock.post [(lit "concern", lit "  Street light broken  ")])
           MoreMock.noon MoreMock.member).
  - reflexivity.
  - intros H. unfold blank in H. vm_compute in H. discriminate H.
Defined.

(** ** [dashboard] *)

Lemma slice_last_spec {A : Type} (n : nat) (l : list A) :
  exists older,
    l = older ++ slice_last n l /\
    List.length (slice_last n l) = Nat.min n (List.length l).
Proof.
  unfold slice_last. exists (firstn (List.length l - n) l). split.
  - now rewrite firstn_skipn.
  - rewrite length_skipn. lia.
Qed.

(** For a visitor who is logged in, [dashboard] changes nothing and shows
    the counters, the number of entries of the chat history, and the most
    recent concerns: the last ten in their order, or all of them when there
    are fewer than ten. *)
Theorem dashboard_summary (w : world) :
  dict_in (lit "logged_in") (session w) = true ->
  exists older recent,
    concerns w = older ++ recent /\
    List.length recent = Nat.min 10 (List.length (concerns w)) /\
    dashboard w =
      (Ok (Render (lit "dashboard.html")
             [(lit "sentiment_data", TCounts (sentiment_data w));
              (lit "recent_concerns", TConcerns recent);
              (lit "total_interactions", TInt (List.length (chat_history w)))]),
       w, []).
Proof.
  intros Hin.
  destruct (slice_last_spec 10 (concerns w)) as (older & Hsplit & Hlen).
  exists older, (slice_last 10 (concerns w)).
  split; [exact Hsplit|]. split; [exact Hlen|].
  unfold_web. cbn -[slice_last]. rewrite Hin. cbn -[slice_last].
  destruct (concerns w); reflexivity.
Qed.

Lemma dashboard_summary_witness :
  exists older recent,
    concerns MoreMock.busy = older ++ recent /\
    List.length recent = Nat.min 10 (List.length (concerns MoreMock.busy)) /\
    dashboard MoreMock.busy =
      (Ok (Render (lit "dashboard.html")
             [(lit "sentiment_data", TCounts (sentiment_data MoreMock.busy));
              (lit "recent_concerns", TConcerns recent);
              (lit "total_interactions", TInt (List.length (chat_history MoreMock.busy)))]),
       MoreMock.busy, []).
Proof. apply dashboard_summary. reflexivity. Defined.

(** Of twelve concerns the dashboard shows the third to the twelfth. *)
Example dashboard_sample :
  outcome (dashboard MoreMock.busy) =
    Ok (Render (lit "dashboard.html")
          [(lit "sentiment_data", TCounts (sentiment_data MoreMock.busy));
           (lit "recent_concerns", TConcerns (map MoreMock.numbered (seq 2 10)));
           (lit "total_interactions", TInt 0)]).
Proof. vm_compute. reflexivity. Qed.

(** ** [login] and [logout] *)

Lemma dict_in_set_same {V : Type} (d : dict V) (key : str) (v : V) :
  dict_in key (dict_set d key v) = true.
Proof. unfold dict_in. now rewrite dict_get_set_same. Qed.

Lemma dict_in_set_other {V : Type} (d : dict V) (key k : str) (v : V) :
  k <> key -> dict_in k (dict_set d key v) = dict_in k d.
Proof. intros H. unfold dict_in. now rewrite dict_get_set_other. Qed.

Lemma logged_in_is_not_username : lit "logged_in" <> lit "username".
Proof. intros H. apply (f_equal (eqb (lit "logged_in"))) in H. vm_compute in H. discriminate H. Qed.

Lemma logged_in_is_not_flashes : lit "logged_in" <> lit "_flashes".
Proof. intros H. apply (f_equal (eqb (lit "logged_in"))) in H. vm_compute in H. discriminate H. Qed.

Lemma username_is_not_flashes : lit "username" <> lit "_flashes".
Proof. intros H. apply (f_equal (eqb (lit "username"))) in H. vm_compute in H. discriminate H. Qed.

Lemma pending_flashes_set (s : dict session_value) (l : list (str * str)) :
  pending_flashes (dict_set s (lit "_flashes") (VFlashes l)) = l.
Proof. unfold pending_flashes. now rewrite dict_get_set_same. Qed.

(** A POST with the user name 'admin' and the password 'password', white
    space around them not counting, is answered with a redirect to the chat;
    afterwards the session holds ['logged_in'] and the user name 'admin', the
    stores and the model globals are unchanged, and the chat view shows the
    chat page. *)
Theorem login_accepts (req : request) (w : world) :
  eqb (method req) (lit "POST") = true ->
  credentials_ok req = true ->
  outcome (login req w) = Ok (Redirect (lit "chat")) /\
  trace (login req w) = [Flashed (lit "Login successful!") (lit "success")] /\
  dict_in (lit "logged_in") (session (after (login req w))) = true /\
  dict_get (session (after (login req w))) (lit "username") = Some (VStr (lit "admin")) /\
  stores (after (login req w)) = stores w /\
  ai (after (login req w)) = ai w /\
  chat (after (login req w)) =
    (Ok (Render (lit "chat.html") []), after (login req w), []).
Proof.
  intros Hpost Hcred. unfold credentials_ok in Hcred.
  assert (Huser : form_field req (lit "username") = lit "admin").
  { apply andb_true_iff in Hcred as [H _]. now apply SentimentFacts.eqb_eq. }
  set (named := dict_set (dict_set (session w) (lit "logged_in") (VBool true))
                  (lit "username") (VStr (lit "admin"))).
  assert (Hafter : login req w =
            (Ok (Redirect (lit "chat")),
             {| session := dict_set named (lit "_flashes")
                  (VFlashes (pending_flashes named ++
                             [(lit "success", lit "Login successful!")]));
                chat_history := chat_history w;
                sentiment_data := sentiment_data w;
                concerns := concerns w;
                ai := ai w |},
             [Flashed (lit "Login successful!") (lit "success")])).
  { unfold_web. rewrite Hpost, Hcred. cbn -[pending_flashes]. now rewrite Huser. }
  rewrite Hafter. unfold outcome, after, trace, stores. cbn [fst snd session chat_history
    sentiment_data concerns ai].
  assert (Hin : dict_in (lit "logged_in")
                  (dict_set named (lit "_flashes")
                     (VFlashes (pending_flashes named ++
                                [(lit "success", lit "Login successful!")]))) = true).
  { rewrite dict_in_set_other by exact logged_in_is_not_flashes.
    unfold named. rewrite dict_in_set_other by exact logged_in_is_not_username.
    apply dict_in_set_same. }
  repeat split.
  - exact Hin.
  - rewrite dict_get_set_other by exact username_is_not_flashes.
    apply dict_get_set_same.
  - unfold_web. cbn -[pending_flashes]. rewrite Hin. reflexivity.
Qed.

Lemma login_accepts_witness :
  let req := MoreMock.post [(lit "username", lit " admin "); (lit "password", lit "password")] in
  let w := initial_world in
  outcome (login req w) = Ok (Redirect (lit "chat")) /\
  trace (login req w) = [Flashed (lit "Login successful!") (lit "success")] /\
  dict_in (lit "logged_in") (session (after (login req w))) = true /\
  dict_get (session (after (login req w))) (lit "username") = Some (VStr (lit "admin")) /\
  stores (after (login req w)) = stores w /\
  ai (after (login req w)) = ai w /\
  chat (after (login req w)) =
    (Ok (Render (lit "chat.html") []), after (login req w), []).
Proof.
  apply (login_accepts
           (MoreMock.post [(lit "username", lit " admin "); (lit "password", lit "password")])
           initial_world); reflexivity.
Defined.

Lemma login_without_credentials (req : request) (w : world) :
  eqb (method req) (lit "POST") && credentials_ok req = false ->
  outcome (login req w) = Ok (Render (lit "login.html") []) /\
  stores (after (login req w)) = stores w /\
  ai (after (login req w)) = ai w /\
  (forall k, k <> lit "_flashes" ->
     dict_get (session (after (login req w))) k = dict_get (session w) k) /\
  dict_in (lit "logged_in") (session (after (login req w)))
    = dict_in (lit "logged_in") (session w) /\
  (if eqb (method req) (lit "POST")
   then trace (login req w) =
          [Flashed (lit "Invalid username or password.") (lit "error")] /\
        pending_flashes (session (after (login req w))) =
          pending_flashes (session w) ++
          [(lit "error", lit "Invalid username or password.")]
   else trace (login req w) = [] /\ after (login req w) = w).
Proof.
  intros H. unfold credentials_ok in H. unfold_web.
  destruct (eqb (method req) (lit "POST")); cbn -[pending_flashes] in *.
  - rewrite H. cbn -[pending_flashes]. repeat split.
    + intros k Hk. now apply dict_get_set_other.
    + apply dict_in_set_other. exact logged_in_is_not_flashes.
    + apply pending_flashes_set.
  - repeat split.
Qed.

(** A request to the login view that is not a POST with these credentials
    is answered with the login page and logs nobody in and nobody out: the
    stores and the model globals are as they were, and so is every entry of
    the session other than Flask's ['_flashes'], ['logged_in'] included.  A
    POST adds the error message to the pending flash messages; any other
    method leaves the session as it was altogether. *)
Theorem login_rejects (req : request) (w : world) :
  eqb (method req) (lit "POST") && credentials_ok req = false ->
  outcome (login req w) = Ok (Render (lit "login.html") []) /\
  stores (after (login req w)) = stores w /\
  ai (after (login req w)) = ai w /\
  (forall k, k <> lit "_flashes" ->
     dict_get (session (after (login req w))) k = dict_get (session w) k) /\
  dict_in (lit "logged_in") (session (after (login req w)))
    = dict_in (lit "logged_in") (session w) /\
  (if eqb (method req) (lit "POST")
   then trace (login req w) =
          [Flashed (lit "Invalid username or password.") (lit "error")] /\
        pending_flashes (session (after (login req w))) =
          pending_flashes (session w) ++
          [(lit "error", lit "Invalid username or password.")]
   else trace (login req w) = [] /\ after (login req w) = w).
Proof.
  intros H. unfold credentials_ok in H. unfold_web.
  destruct (eqb (method req) (lit "POST")); cbn -[pending_flashes] in *.
  - rewrite H. cbn -[pending_flashes]. repeat split.
    + intros k Hk. now apply dict_get_set_other.
    + apply dict_in_set_other. exact logged_in_is_not_flashes.
    + apply pending_flashes_set.
  - repeat split.
Qed.

Lemma login_rejects_witness :
  let req := MoreMock.post [(lit "username", lit "admin"); (lit "password", lit "Password")] in
  let w := MoreMock.member in
  outcome (login req w) = Ok (Render (lit "login.html") []) /\
  stores (after (login req w)) = stores w /\
  ai (after (login req w)) = ai w /\
  (forall k, k <> lit "_flashes" ->
     dict_get (session (after (login req w))) k = dict_get (session w) k) /\
  dict_in (lit "logged_in") (session (after (login req w)))
    = dict_in (lit "logged_in") (session w) /\
  (if eqb (method req) (lit "POST")
   then trace (login req w) =
          [Flashed (lit "Invalid username or password.") (lit "error")] /\
        pending_flashes (session (after (login req w))) =
          pending_flashes (session w) ++
          [(lit "error", lit "Invalid username or password.")]
   else trace (login req w) = [] /\ after (login req w) = w).
Proof.
  apply (login_rejects
           (MoreMock.post [(lit "username", lit "admin"); (lit "password", lit "Password")])
           MoreMock.member).
  reflexivity.
Defined.

(** The session after a rejected POST of a member: the two entries of the
    login, then the pending message. *)
Example login_rejects_sample :
  session (after (login
                    (MoreMock.post [(lit "username", lit "admin");
                                    (lit "password", lit "Password")])
                    MoreMock.member))
  = [(lit "logged_in", VBool true); (lit "username", VStr (lit "admin"));
     (lit "_flashes", VFlashes [(lit "error", lit "Invalid username or password.")])].
Proof. vm_compute. reflexivity. Qed.

Lemma logout_session (w : world) :
  session (after (logout w)) =
    [(lit "_flashes", VFlashes [(lit "info", lit "You have been logged out.")])].
Proof. reflexivity. Qed.

(** [logout] clears the session, whatever it held, and then flashes its
    message: afterwards the session holds nothing but that one pending
    message under ['_flashes'], so no other key, ['logged_in'] included, is
    left; the stores and the model globals are untouched, and each protected
    view redirects to the login page. *)
Theorem logout_ends_session (E : env) (lower : str -> str) (w : world) (h : hit) :
  In (target h) [Chat; Ask; Feedback; Concern; Dashboard] ->
  outcome (logout w) = Ok (Redirect (lit "index")) /\
  session (after (logout w)) =
    [(lit "_flashes", VFlashes [(lit "info", lit "You have been logged out.")])] /\
  (forall k, k <> lit "_flashes" -> dict_get (session (after (logout w))) k = None) /\
  logged_out (after (logout w)) /\
  stores (after (logout w)) = stores w /\
  ai (after (logout w)) = ai w /\
  outcome (handle E lower h (after (logout w))) = Ok (Redirect (lit "login")).
Proof.
  intros Hin.
  assert (Hout : logged_out (after (logout w))) by reflexivity.
  repeat split.
  - intros k Hk. rewrite logout_session. cbn [dict_get].
    rewrite eqb_neq; [reflexivity|congruence].
  - rewrite (redirect_when_logged_out E lower h (after (logout w)) Hout Hin).
    reflexivity.
Qed.

Lemma logout_ends_session_witness :
  let h := {| target := Dashboard; sent := MoreMock.get; clock := MoreMock.noon |} in
  let w := MoreMock.member in
  outcome (logout w) = Ok (Redirect (lit "index")) /\
  session (after (logout w)) =
    [(lit "_flashes", VFlashes [(lit "info", lit "You have been logged out.")])] /\
  (forall k, k <> lit "_flashes" -> dict_get (session (after (logout w))) k = None) /\
  logged_out (after (logout w)) /\
  stores (after (logout w)) = stores w /\
  ai (after (logout w)) = ai w /\
  outcome (handle Mock.healthy ascii_lower h (after (logout w)))
    = Ok (Redirect (lit "login")).
Proof.
  apply (logout_ends_session Mock.healthy ascii_lower MoreMock.member
           {| target := Dashboard; sent := MoreMock.get; clock := MoreMock.noon |}).
  simpl. tauto.
Defined.

(** ** Asking while no model is loaded *)

(** For a visitor who is logged in while the tokenizer or the model is
    unset, a question that is not blank is answered with the not-ready
    message, and that message is recorded in the chat history like an
    answer; no call to a tokenizer or a model is made. *)
Theorem ask_question_not_ready (E : env) (req : request) (now : str) (w : world) :
  dict_in (lit "logged_in") (session w) = true ->
  ~ blank (dict_get_default (form req) (lit "question") []) ->
  tokenizer (ai w) = None \/ model (ai w) = None ->
  ask_question E req now w =
    (Ok (Render (lit "chat.html")
           [(lit "question_response", TStr NOT_READY);
            (lit "user_question", TStr (form_field req (lit "question")))]),
     {| session := session w;
        chat_history := chat_history w ++
          [{| chat_timestamp := now;
              chat_question := form_field req (lit "question");
              chat_response := NOT_READY |}];
        sentiment_data := sentiment_data w;
        concerns := concerns w;
        ai := ai w |},
     []).
Proof.
  intros Hin Hnb Hnone.
  assert (Hq : form_field req (lit "question") <> []).
  { intros H. apply Hnb. now apply strip_empty_iff. }
  pose proof (generate_response_not_ready E (form_field req (lit "question")) (ai w) Hnone)
    as Hrun.
  unfold_web. cbn -[generate_response NOT_READY]. rewrite Hin.
  cbn -[generate_response NOT_READY].
  destruct (form_field req (lit "question")) as [|c q]; [congruence|].
  rewrite Hrun. reflexivity.
Qed.

Lemma ask_question_not_ready_witness :
  let req := MoreMock.post [(lit "question", lit "When is the office open?")] in
  let w := MoreMock.member_without_model in
  ask_question Mock.healthy req MoreMock.noon w =
    (Ok (Render (lit "chat.html")
           [(lit "question_response", TStr NOT_READY);
            (lit "user_question", TStr (form_field req (lit "question")))]),
     {| session := session w;
        chat_history := chat_history w ++
          [{| chat_timestamp := MoreMock.noon;
              chat_question := form_field req (lit "question");
              chat_response := NOT_READY |}];
        sentiment_data := sentiment_data w;
        concerns := concerns w;
        ai := ai w |},
     []).
Proof.
  apply (ask_question_not_ready Mock.healthy
           (MoreMock.post [(lit "question", lit "When is the office open?")])
           MoreMock.noon MoreMock.member_without_model).
  - reflexivity.
  - intros H. unfold blank in H. vm_compute in H. discriminate H.
  - left. reflexivity.
Defined.

(** ** What every request preserves *)

Lemma extends_refl {A : Type} (l : list A) : extends l l.
Proof. exists []. now rewrite app_nil_r. Qed.

Lemma extends_trans {A : Type} (l1 l2 l3 : list A) :
  extends l1 l2 -> extends l2 l3 -> extends l1 l3.
Proof. intros [a ->] [b ->]. exists (a ++ b). now rewrite app_assoc. Qed.

Lemma extends_one {A : Type} (l : list A) (x : A) : extends l (l ++ [x]).
Proof. now exists [x]. Qed.

Ltac preserved :=
  repeat split; try apply extends_refl; try apply extends_one;
  try (rewrite ?length_app; unfold total, list_sum; cbn; lia).

(** One request: the logs only grow, by at most one entry and only through
    the view that writes them; the keys of the counters stay and their sum
    grows by at most one, only through the feedback view; the model globals
    are never written. *)
Lemma handle_preserves (E : env) (lower : str -> str) (h : hit) (w : world) :
  let w' := after (handle E lower h w) in
  extends (chat_history w) (chat_history w') /\
  List.length (chat_history w') <= List.length (chat_history w) + bump (is_ask h) /\
  extends (concerns w) (concerns w') /\
  List.length (concerns w') <= List.length (concerns w) + bump (is_concern h) /\
  map fst (sentiment_data w') = map fst (sentiment_data w) /\
  total (sentiment_data w) <= total (sentiment_data w') /\
  total (sentiment_data w') <= total (sentiment_data w) + bump (is_feedback h) /\
  ai w' = ai w.
Proof.
  assert (Hsame : forall w0 : world,
    extends (chat_history w0) (chat_history w0) /\
    List.length (chat_history w0) <= List.length (chat_history w0) + bump (is_ask h) /\
    extends (concerns w0) (concerns w0) /\
    List.length (concerns w0) <= List.length (concerns w0) + bump (is_concern h) /\
    map fst (sentiment_data w0) = map fst (sentiment_data w0) /\
    total (sentiment_data w0) <= total (sentiment_data w0) /\
    total (sentiment_data w0) <= total (sentiment_data w0) + bump (is_feedback h) /\
    ai w0 = ai w0).
  { intros w0. repeat split; try apply extends_refl; lia. }
  unfold is_ask, is_concern, is_feedback.
  destruct h as [ep req now]. cbn [target sent clock]. unfold handle. cbn [target sent clock].
  destruct ep; cbv zeta.
  - (* index *) apply (Hsame w).
  - apply (Hsame w).
  - apply (Hsame w).
  - (* chat *)
    unfold_web. cbn. destruct (dict_in (lit "logged_in") (session w)); apply (Hsame w).
  - (* ask_question *)
    pose proof (generate_response_final E (form_field req (lit "question")) (ai w))
      as Hg.
    unfold_web. cbn -[generate_response].
    destruct (dict_in (lit "logged_in") (session w)); cbn -[generate_response];
      [|apply (Hsame w)].
    destruct (form_field req (lit "question")) as [|c q]; [apply (Hsame w)|].
    unfold final in Hg.
    destruct (generate_response E (c :: q) (ai w)) as [[[r|e] g] t];
      cbn in Hg; subst g; cbn.
    + preserved.
    + preserved.
  - (* submit_feedback *)
    unfold_web. cbn -[analyze_sentiment total].
    destruct (dict_in (lit "logged_in") (session w)); cbn -[analyze_sentiment total];
      [|apply (Hsame w)].
    destruct (form_field req (lit "feedback")) as [|c q]; [apply (Hsame w)|].
    set (key := lower (analyze_sentiment lower (c :: q))).
    destruct (dict_in key (sentiment_data w)) eqn:Hin; cbn -[total]; [|apply (Hsame w)].
    destruct (dict_get (sentiment_data w) key) as [n|] eqn:Hget; cbn -[total].
    + repeat split; try apply extends_refl; try lia.
      * now apply dict_set_keys.
      * rewrite (dict_set_total _ _ _ Hget). lia.
      * rewrite (dict_set_total _ _ _ Hget). lia.
    + preserved.
  - (* submit_concern *)
    unfold_web. cbn.
    destruct (dict_in (lit "logged_in") (session w)); cbn; [|apply (Hsame w)].
    destruct (form_field req (lit "concern")) as [|c q]; [apply (Hsame w)|]. cbn.
    preserved.
  - (* dashboard *)
    unfold_web. cbn -[slice_last].
    destruct (dict_in (lit "logged_in") (session w)); apply (Hsame w).
  - (* login *)
    unfold_web.
    destruct (eqb (method req) (lit "POST")); cbn; [|apply (Hsame w)].
    destruct (eqb (form_field req (lit "username")) (lit "admin") &&
              eqb (form_field req (lit "password")) (lit "password")); cbn;
      preserved.
  - (* logout *)
    unfold_web. cbn. preserved.
Qed.

Lemma serve_cons (E : env) (lower : str -> str) (h : hit) (hits : list hit) (w : world) :
  serve E lower (h :: hits) w =
  (fst (serve E lower hits (after (handle E lower h w))),
   trace (handle E lower h w) ++ snd (serve E lower hits (after (handle E lower h w)))).
Proof.
  cbn [serve]. unfold after, trace.
  destruct (handle E lower h w) as [[r w1] t1]. cbn [fst snd].
  destruct (serve E lower hits w1) as [w2 t2]. reflexivity.
Qed.

Lemma serve_all_cons (E : env) (lower : str -> str) (cookie : dict session_value)
    (h : hit) (arrivals : list (dict session_value * hit)) (w : world) :
  fst (serve_all E lower ((cookie, h) :: arrivals) w) =
  fst (serve_all E lower arrivals (after (handle E lower h (with_session cookie w)))).
Proof.
  cbn [serve_all]. unfold after.
  destruct (handle E lower h (with_session cookie w)) as [[r w1] t1]. cbn [fst snd].
  destruct (serve_all E lower arrivals w1) as [w2 t2]. reflexivity.
Qed.

Lemma serve_all_preserves (E : env) (lower : str -> str)
    (arrivals : list (dict session_value * hit)) (w : world) :
  let w' := fst (serve_all E lower arrivals w) in
  let hits := map snd arrivals in
  extends (chat_history w) (chat_history w') /\
  List.length (chat_history w') <=
    List.length (chat_history w) + List.length (filter is_ask hits) /\
  extends (concerns w) (concerns w') /\
  List.length (concerns w') <=
    List.length (concerns w) + List.length (filter is_concern hits) /\
  map fst (sentiment_data w') = map fst (sentiment_data w) /\
  total (sentiment_data w) <= total (sentiment_data w') /\
  total (sentiment_data w') <=
    total (sentiment_data w) + List.length (filter is_feedback hits) /\
  ai w' = ai w.
Proof.
  revert w. induction arrivals as [|[cookie h] arrivals IH]; intros w; cbv zeta.
  - cbn. repeat split; try apply extends_refl; lia.
  - rewrite serve_all_cons.
    destruct (handle_preserves E lower h (with_session cookie w))
      as (H1 & H2 & H3 & H4 & H5 & H6 & H7 & H8).
    cbn [with_session chat_history concerns sentiment_data ai] in H1, H2, H3, H4, H5, H6, H7, H8.
    destruct (IH (after (handle E lower h (with_session cookie w))))
      as (I1 & I2 & I3 & I4 & I5 & I6 & I7 & I8).
    cbn [map snd].
    assert (Ba : List.length (filter is_ask (h :: map snd arrivals))
                 = bump (is_ask h) + List.length (filter is_ask (map snd arrivals)))
      by (cbn [filter]; destruct (is_ask h); reflexivity).
    assert (Bc : List.length (filter is_concern (h :: map snd arrivals))
                 = bump (is_concern h) + List.length (filter is_concern (map snd arrivals)))
      by (cbn [filter]; destruct (is_concern h); reflexivity).
    assert (Bf : List.length (filter is_feedback (h :: map snd arrivals))
                 = bump (is_feedback h) + List.length (filter is_feedback (map snd arrivals)))
      by (cbn [filter]; destruct (is_feedback h); reflexivity).
    rewrite Ba, Bc, Bf.
    repeat split.
    + exact (extends_trans _ _ _ H1 I1).
    + lia.
    + exact (extends_trans _ _ _ H3 I3).
    + lia.
    + congruence.
    + lia.
    + lia.
    + congruence.
Qed.

(** Whatever requests are served, in whatever order, from whatever visitors
    and with whatever sessions, the chat history and the concerns only grow
    at the end: what was recorded stays in place, and there are at most as
    many new entries as there were requests to the view that writes them. *)
Theorem logs_are_append_only (E : env) (lower : str -> str)
    (arrivals : list (dict session_value * hit)) (w : world) :
  extends (chat_history w) (chat_history (fst (serve_all E lower arrivals w))) /\
  List.length (chat_history (fst (serve_all E lower arrivals w))) <=
    List.length (chat_history w) + List.length (filter is_ask (map snd arrivals)) /\
  extends (concerns w) (concerns (fst (serve_all E lower arrivals w))) /\
  List.length (concerns (fst (serve_all E lower arrivals w))) <=
    List.length (concerns w) + List.length (filter is_concern (map snd arrivals)).
Proof.
  destruct (serve_all_preserves E lower arrivals w) as (H1 & H2 & H3 & H4 & _).
  auto.
Qed.

(** Whatever requests are served, the counters keep their keys, their sum
    never goes down, and it grows by at most the number of feedback
    requests. *)
Theorem counters_keep_keys (E : env) (lower : str -> str)
    (arrivals : list (dict session_value * hit)) (w : world) :
  map fst (sentiment_data (fst (serve_all E lower arrivals w)))
    = map fst (sentiment_data w) /\
  total (sentiment_data w) <= total (sentiment_data (fst (serve_all E lower arrivals w))) /\
  total (sentiment_data (fst (serve_all E lower arrivals w))) <=
    total (sentiment_data w) + List.length (filter is_feedback (map snd arrivals)).
Proof.
  destruct (serve_all_preserves E lower arrivals w) as (_ & _ & _ & _ & H5 & H6 & H7 & _).
  auto.
Qed.

(** No request ever writes the model globals: tokenizer, model and device
    after any sequence of requests are those before it. *)
Theorem requests_keep_model (E : env) (lower : str -> str)
    (arrivals : list (dict session_value * hit)) (w : world) :
  ai (fst (serve_all E lower arrivals w)) = ai w.
Proof. apply (serve_all_preserves E lower arrivals w). Qed.

(** ** Nothing happens before a login *)

Lemma logged_out_step (E : env) (lower : str -> str) (h : hit) (w : world) :
  logged_out w -> logs_in h = false ->
  stores (after (handle E lower h w)) = stores w /\
  logged_out (after (handle E lower h w)) /\
  filter is_ai (trace (handle E lower h w)) = [].
Proof.
  intros Hout Hno.
  destruct (target h) eqn:Ht;
    try (rewrite (redirect_when_logged_out E lower h w Hout)
           by (rewrite Ht; simpl; tauto);
         repeat split; exact Hout).
  - unfold handle. rewrite Ht. repeat split; exact Hout.
  - unfold handle. rewrite Ht. repeat split; exact Hout.
  - unfold handle. rewrite Ht. repeat split; exact Hout.
  - unfold logs_in in Hno. rewrite Ht in Hno.
    destruct (login_without_credentials (sent h) w Hno)
      as (_ & Hstores & _ & _ & Hin & Htrace).
    unfold handle. rewrite Ht. split; [exact Hstores|]. split.
    + unfold logged_out. rewrite Hin. exact Hout.
    + destruct (eqb (method (sent h)) (lit "POST")).
      * destruct Htrace as [-> _]. reflexivity.
      * destruct Htrace as [-> _]. reflexivity.
  - unfold handle. rewrite Ht. repeat split.
Qed.

(** Starting without ['logged_in'] in the session, any sequence of requests
    none of which is a POST to the login view with the right credentials
    leaves the chat history, the counters and the concerns exactly as they
    were, makes no call to a tokenizer or a model, and ends with the session
    still not logged in. *)
Theorem nothing_without_login (E : env) (lower : str -> str) (hits : list hit) (w : world) :
  logged_out w ->
  forallb (fun h => negb (logs_in h)) hits = true ->
  stores (fst (serve E lower hits w)) = stores w /\
  logged_out (fst (serve E lower hits w)) /\
  filter is_ai (snd (serve E lower hits w)) = [].
Proof.
  revert w. induction hits as [|h hits IH]; intros w Hout Hall.
  - cbn. repeat split. exact Hout.
  - cbn [forallb] in Hall. apply andb_true_iff in Hall as [Hh Hall].
    apply negb_true_iff in Hh.
    destruct (logged_out_step E lower h w Hout Hh) as (Hs & Ho & Ht).
    destruct (IH (after (handle E lower h w)) Ho Hall) as (Is & Io & It).
    rewrite serve_cons. cbn [fst snd].
    rewrite filter_app, Ht, It, Is, Hs. repeat split. exact Io.
Qed.

Lemma nothing_without_login_witness :
  let hits :=
    [ {| target := Ask;
         sent := MoreMock.post [(lit "question", lit "When is the office open?")];
         clock := MoreMock.noon |};
      {| target := Login;
         sent := MoreMock.post [(lit "username", lit "admin"); (lit "password", lit "admin")];
         clock := MoreMock.noon |};
      {| target := Feedback;
         sent := MoreMock.post [(lit "feedback", lit "terrible")];
         clock := MoreMock.noon |};
      {| target := Logout; sent := MoreMock.get; clock := MoreMock.noon |};
      {| target := Concern;
         sent := MoreMock.post [(lit "concern", lit "pothole")];
         clock := MoreMock.noon |} ] in
  stores (fst (serve Mock.healthy ascii_lower hits initial_world)) = stores initial_world /\
  logged_out (fst (serve Mock.healthy ascii_lower hits initial_world)) /\
  filter is_ai (snd (serve Mock.healthy ascii_lower hits initial_world)) = [].
Proof.
  cbv zeta. apply nothing_without_login; reflexivity.
Defined.

End WebFacts.

(* ================================================================== *)
(** * A further fact about the sentiment scores *)
(* ================================================================== *)

Module SentimentMore.
Import PyStr Py App Spec PyStrFacts SentimentFacts.

Lemma score_monotone (words : list str) (s s' : str) :
  (forall w, In w words -> substring w s -> substring w s') ->
  score words s <= score words s'.
Proof.
  induction words as [|w ws IH]; intros H; [reflexivity|].
  rewrite !score_cons.
  assert (IH' : score ws s <= score ws s').
  { apply IH. intros k Hk. apply H. now right. }
  destruct (contains w s) eqn:Hc; [|destruct (contains w s'); lia].
  assert (Hc' : contains w s' = true).
  { apply contains_substring, H; [now left|]. now apply contains_substring. }
  rewrite Hc'. lia.
Qed.

(** For either word list, the score of a (lower-cased) text is at least the
    score of each part it is put together from: adding text before or after
    never takes a keyword hit away. *)
Theorem score_grows_with_text (words : list str) (a b : str) :
  score words a <= score words (a ++ b) /\
  score words b <= score words (a ++ b).
Proof.
  split; apply score_monotone; intros w _ (pre & post & ->).
  - exists pre, (post ++ b). now rewrite <- !app_assoc.
  - exists (a ++ pre), post. now rewrite <- app_assoc.
Qed.

End SentimentMore.
